(** * pykv: a shallow embedding of [pykv/server.py]

    The node keeps an in-memory dictionary [kv], an append-only text log
    [kv.log] and a queue of writes to broadcast.  This development embeds the
    client handler, the replication listener and broadcaster, the bootstrap
    client and the log replay of [server.py], and states the checked
    properties of each.

    Conventions of the embedding.
    - A Python [str] is a [string]; a character stands for a code point
      below 256, so the whitespace and lower-case tables below are the
      Latin-1 part of Python's.
    - The dictionary [kv] is a [gmap string string]; the iteration order of
      [kv.items()] is that of [map_to_list].
    - Every function that touches a socket, the log file or the queue is a
      computation in the monad [M]: it threads a state, records its effects
      in program order, and either returns or raises.  A raised exception
      keeps the state and the effects reached so far, as a Python exception
      does with a shared object.
    - Console output ([print]) is not recorded.
    - The threads of the node are embedded one at a time: no interleaving
      is modelled. *)

From Stdlib Require Import Ascii String.
From stdpp Require Import base option list strings gmap fin_maps.

Local Open Scope string_scope.
Local Open Scope list_scope.

(** ** Python string operations *)

Module PyStr.

(** [str.isspace] on one character: TAB..CR, FS..US, space, NEL, NBSP. *)
Definition isspace (c : ascii) : bool :=
  let n := nat_of_ascii c in
  (((9 <=? n) && (n <=? 13)) || ((28 <=? n) && (n <=? 32))
   || (n =? 133) || (n =? 160))%nat.

(** [str.lower] on one character: A-Z, and the Latin-1 capitals but the
    multiplication sign. *)
Definition lower_char (c : ascii) : ascii :=
  let n := nat_of_ascii c in
  if (((65 <=? n) && (n <=? 90))
      || ((192 <=? n) && (n <=? 222) && negb (n =? 215)))%nat
  then ascii_of_nat (n + 32) else c.

Fixpoint lower (s : string) : string :=
  match s with
  | EmptyString => EmptyString
  | String c r => String (lower_char c) (lower r)
  end.

(** [s.startswith(p)] *)
Definition startswith (s p : string) : bool := String.prefix p s.

(** [s.split(sep)] with a one-character separator: empty fields are kept,
    and the empty string has the single field [""]. *)
Fixpoint split_on (sep : ascii) (s : string) : list string :=
  match s with
  | EmptyString => [EmptyString]
  | String c r =>
      if Ascii.eqb c sep then EmptyString :: split_on sep r
      else match split_on sep r with
           | t :: ts => String c t :: ts
           | [] => [String c EmptyString]
           end
  end.

(** [s.split()]: fields are the maximal runs of non-whitespace. *)
Fixpoint split (s : string) : list string :=
  match s with
  | EmptyString => []
  | String c r =>
      if isspace c then split r
      else match r with
           | EmptyString => [String c EmptyString]
           | String c' _ =>
               if isspace c' then String c EmptyString :: split r
               else match split r with
                    | t :: ts => String c t :: ts
                    | [] => [String c EmptyString]
                    end
           end
  end.

(** [s.rstrip()] *)
Fixpoint rstrip (s : string) : string :=
  match s with
  | EmptyString => EmptyString
  | String c r =>
      match rstrip r with
      | EmptyString => if isspace c then EmptyString else String c EmptyString
      | r' => String c r'
      end
  end.

(** Number of occurrences of a character. *)
Fixpoint count (sep : ascii) (s : string) : nat :=
  match s with
  | EmptyString => 0
  | String c r => (if Ascii.eqb c sep then 1 else 0) + count sep r
  end.

(** A word: a non-empty string without whitespace, the only kind of key
    or value that survives [split]. *)
Fixpoint nospace (s : string) : bool :=
  match s with
  | EmptyString => true
  | String c r => negb (isspace c) && nospace r
  end.

Definition word (s : string) : bool :=
  match s with EmptyString => false | _ => nospace s end.

End PyStr.

(** ** Exceptions, effects and the monad *)

Inductive exn : Type :=
| ValueError          (* tuple unpacking with the wrong number of fields *)
| AssertionError
| TypeError
| FileNotFoundError
| PermissionError
| OSError             (* a socket operation failed *)
| CodecError.         (* the framed stream could not be decoded *)

Inductive outcome (A : Type) : Type :=
| Ok (a : A)
| Raise (e : exn).
Arguments Ok {A} a.
Arguments Raise {A} e.

(** A peer as the membership view yields it. *)
Record NodeParams : Type := { ip : string; gossip_port : N }.

Inductive effect : Type :=
| SendStr (msg : option string)       (* send_str(sock, msg) on the connection served *)
| SendUint32 (n : nat)                (* send_uint32(sock, n) *)
| LogWrite (s : string)               (* kv_log.write(s) *)
| LogFlush                            (* kv_log.flush() *)
| QueuePut (s : string)               (* replication_log.put(s) *)
| PeerConnect (p : NodeParams)        (* one_off_socket(p) *)
| PeerSend (p : NodeParams) (s : string)
| PeerClose (p : NodeParams)
| SeedConnect (seed_port : N)         (* one_time_socket: connect to the seed *)
| SeedClose                           (* one_time_socket: the final close *)
| LogOpen                             (* open("kv.log", "a") *)
| GossipNew (port gossip_port : N)    (* GossipNode(port, gossip_port) *)
| GossipSeed (seed_port : N)          (* gossip_node.seed(seed_port) *)
| GossipStart                         (* gossip_node.start() *)
| ThreadStart (name : string)         (* Thread(...).start() *)
| ClientListen (port : N)             (* sock.bind(...); sock.listen(5) *)
| SignalHandlers.                     (* init_signal_handlers(...) *)

Record run (S A : Type) : Type :=
  Run { res : outcome A; final : S; trace : list effect }.
Arguments Run {S A} res final trace.
Arguments res {S A} r.
Arguments final {S A} r.
Arguments trace {S A} r.

Definition M (S A : Type) : Type := S → run S A.

Definition ret {S A} (a : A) : M S A := λ s, Run (Ok a) s [].

Definition bind {S A B} (m : M S A) (f : A → M S B) : M S B :=
  λ s,
    let r := m s in
    match res r with
    | Ok a => let r' := f a (final r) in
              Run (res r') (final r') (trace r ++ trace r')
    | Raise e => Run (Raise e) (final r) (trace r)
    end.

#[global] Instance M_ret {S} : MRet (M S) := λ A, ret.
#[global] Instance M_bind {S} : MBind (M S) := λ A B f m, bind m f.

Definition raise {S A} (e : exn) : M S A := λ s, Run (Raise e) s [].
Definition emit {S} (e : effect) : M S unit := λ s, Run (Ok ()) s [e].
Definition get_state {S} : M S S := λ s, Run (Ok s) s [].
Definition put_state {S} (s : S) : M S unit := λ _, Run (Ok ()) s [].

(** A [for] loop over a list: the first exception leaves the loop. *)
Fixpoint for_each {S A} (body : A → M S unit) (l : list A) : M S unit :=
  match l with
  | [] => mret ()
  | x :: l' => body x;; for_each body l'
  end.

(** [_, a, b = xs] and [_, a = xs] *)
Definition unpack3 {S} (xs : list string) : M S (string * string) :=
  match xs with
  | [_; a; b] => mret (a, b)
  | _ => raise ValueError
  end.

Definition unpack2 {S} (xs : list string) : M S string :=
  match xs with
  | [_; a] => mret a
  | _ => raise ValueError
  end.

(** ** The client handler *)

Abbreviation Store := (gmap string string).

Definition send_str {S} (msg : option string) : M S unit := emit (SendStr msg).
Definition send_uint32 {S} (n : nat) : M S unit := emit (SendUint32 n).
Definition kv_log_write {S} (s : string) : M S unit := emit (LogWrite s).
Definition kv_log_flush {S} : M S unit := emit LogFlush.
Definition replication_log_put {S} (s : string) : M S unit := emit (QueuePut s).

(** [kv[key] = val] and [kv.get(key)] *)
Definition kv_set (key val : string) : M Store unit :=
  λ kv, Run (Ok ()) (<[key := val]> kv) [].
Definition kv_get (key : string) : M Store (option string) :=
  λ kv, Run (Ok (kv !! key)) kv [].

Definition newline : string := String (ascii_of_nat 10) EmptyString.

(** The reply to an unknown command, in its UTF-8 bytes (U+1F4A9). *)
Definition error_marker : string :=
  String (ascii_of_nat 240) (String (ascii_of_nat 159)
    (String (ascii_of_nat 146) (String (ascii_of_nat 169) EmptyString))).

(** The body of the [while] loop of [handle_client] for one command
    [data], lines 43-58.  Its [send_str], [write] and [flush] are taken to
    succeed; [handle_command_io] below lets them fail. *)
Definition handle_command (data : string) : M Store unit :=
  if PyStr.startswith data "set " then
    '(key, val) ← unpack3 (PyStr.split_on " " data);
    kv_set key val;;
    send_str (Some "OK");;
    kv_log_write data;;
    kv_log_write newline;;
    kv_log_flush;;
    replication_log_put data
  else if PyStr.startswith data "get " then
    key ← unpack2 (PyStr.split_on " " data);
    val ← kv_get key;
    send_str val
  else
    send_str (Some error_marker).

(** [handle_client] on the commands a connection delivers; the end of the
    list is the end of the stream, where [read_uint32] yields [None] and
    the loop breaks. *)
Definition handle_client (commands : list string) : M Store unit :=
  for_each handle_command commands.

(** *** The client handler when its I/O can fail

    [handle_command] takes every [send_str], [write] and [flush] of a
    command to succeed.  In [handle_command_io] the operation number [n]
    of the command, counted from 0 in program order, raises [OSError]
    instead when [fail = Some n]; what comes after it in the command is
    not run.  [replication_log.put] on the unbounded queue and the
    assignment to the dictionary do not fail. *)
Definition io {S} (fail : option nat) (n : nat) (e : effect) : M S unit :=
  match fail with
  | Some m => if (m =? n)%nat then raise OSError else emit e
  | None => emit e
  end.

Definition handle_command_io (fail : option nat) (data : string)
    : M Store unit :=
  if PyStr.startswith data "set " then
    '(key, val) ← unpack3 (PyStr.split_on " " data);
    kv_set key val;;
    io fail 0 (SendStr (Some "OK"));;
    io fail 1 (LogWrite data);;
    io fail 2 (LogWrite newline);;
    io fail 3 LogFlush;;
    replication_log_put data
  else if PyStr.startswith data "get " then
    key ← unpack2 (PyStr.split_on " " data);
    val ← kv_get key;
    io fail 0 (SendStr val)
  else
    io fail 0 (SendStr (Some error_marker)).

(** [handle_client] on the commands read from the connection, each with
    the I/O operation of its handling that fails, if any.  After them the
    loop ends at the end of the stream ([ending = None]) or by an
    exception raised between two commands, in reading or decoding the
    next one ([ending = Some e]). *)
Definition handle_client_io (commands : list (string * option nat))
    (ending : option exn) : M Store unit :=
  for_each (λ c, handle_command_io c.2 c.1) commands;;
  match ending with
  | Some e => raise e
  | None => mret ()
  end.

(** ** The replication broadcaster *)

(** What happens to one delivery attempt. *)
Inductive fate : Type :=
| Delivered
| ConnectFails     (* [sock.connect] raises in [one_off_socket] *)
| SendFails.       (* [send_str] raises on the connected socket *)

(** [one_off_socket]: the connection is made or [connect] raises. *)
Definition one_off_socket {S} (pf : NodeParams * fate) : M S unit :=
  match pf.2 with
  | ConnectFails => raise OSError
  | _ => emit (PeerConnect pf.1)
  end.

(** [send_str(sock, data)] on the socket of a peer. *)
Definition peer_send {S} (data : string) (pf : NodeParams * fate) : M S unit :=
  match pf.2 with
  | SendFails => raise OSError
  | _ => emit (PeerSend pf.1 data)
  end.

(** Lines 86-90, the body of the loop over the peers of the snapshot. *)
Definition deliver {S} (data : string) (pf : NodeParams * fate) : M S unit :=
  one_off_socket pf;;
  peer_send data pf;;
  emit (PeerClose pf.1).

(** [replication_broadcast_loop] on the entries the queue hands out, each
    with the peers the membership view yields at that moment and the fate
    of the attempt at each of them.  At the end of the list the loop blocks
    in [replication_log.get()]. *)
Definition replication_broadcast_loop {S}
    (entries : list (string * list (NodeParams * fate))) : M S unit :=
  for_each (λ '(data, peers), for_each (deliver data) peers) entries.

(** ** The replication listener *)

(** [is_bootstrap] *)
Definition is_bootstrap (cmd : string) : bool :=
  PyStr.startswith (PyStr.lower cmd) "bootstrap".

(** [assert b] *)
Definition py_assert {S} (b : bool) : M S unit :=
  if b then mret () else raise AssertionError.

(** [f"set {k} {v}"] *)
Definition set_line (k v : string) : string := "set " +:+ k +:+ " " +:+ v.

(** The body of the [while] loop of [replication_listen_loop] for one
    inbound command [cmd], lines 111-132. *)
Definition replication_listen_step (cmd : string) : M Store unit :=
  if is_bootstrap cmd then
    kv ← get_state;
    send_uint32 (size kv);;
    for_each (λ '(k, v),
                send_str (Some (set_line k v));;
                kv_log_write cmd;;
                kv_log_write newline;;
                kv_log_flush)
             (map_to_list kv)
  else if negb (PyStr.startswith cmd "set ") then
    mret ()
  else
    let chunks := PyStr.split_on " " cmd in
    py_assert (length chunks =? 3)%nat;;
    '(key, val) ← unpack3 chunks;
    kv_set key val.

(** The listener on the commands of successive inbound connections. *)
Definition replication_listen_loop (cmds : list string) : M Store unit :=
  for_each replication_listen_step cmds.

(** ** Log replay *)

(** What [open("kv.log")] finds; an opened file is the list of its lines
    as the file iterator yields them. *)
Inductive log_file : Type :=
| Missing
| Unreadable
| Lines (lines : list string).

Definition open_kv_log (f : log_file) : outcome (list string) :=
  match f with
  | Missing => Raise FileNotFoundError
  | Unreadable => Raise PermissionError
  | Lines l => Ok l
  end.

(** The [for line in fp] loop of [restore_from_file]. *)
Fixpoint restore_lines (lines : list string) (kv : Store) : outcome Store :=
  match lines with
  | [] => Ok kv
  | line :: rest =>
      match PyStr.split (PyStr.rstrip line) with
      | [_; k; v] => restore_lines rest (<[k := v]> kv)
      | _ => Raise ValueError
      end
  end.

(** The [try] block of [restore_from_file]. *)
Definition restore_body (f : log_file) (kv : Store) : outcome Store :=
  match open_kv_log f with
  | Ok lines => restore_lines lines kv
  | Raise e => Raise e
  end.

(** [restore_from_file]: only [FileNotFoundError] is caught. *)
Definition restore_from_file (f : log_file) : outcome Store :=
  let kv : Store := ∅ in
  match restore_body f kv with
  | Raise FileNotFoundError => Ok kv
  | r => r
  end.

(** ** The bootstrap client *)

(** Modelled from the spec: the framed codec of [pykv.util] ([read_uint32],
    [read_str], [send_str], [send_uint32]) is not among the sources.  A
    connection is the list of frames still to be read: a 4-byte count or a
    length-prefixed text.  [read_uint32] yields [None] at the end of the
    stream, as [handle_client] expects of it. *)
Inductive frame : Type :=
| FUint32 (n : nat)
| FStr (s : string).

Definition read_uint32 : M (list frame) (option nat) :=
  λ sock,
    match sock with
    | [] => Run (Ok None) [] []
    | FUint32 n :: rest => Run (Ok (Some n)) rest []
    | FStr _ :: _ => Run (Raise CodecError) sock []
    end.

Definition read_str : M (list frame) string :=
  λ sock,
    match sock with
    | FStr s :: rest => Run (Ok s) rest []
    | _ => Run (Raise CodecError) sock []
    end.

(** [read_kv] *)
Definition read_kv : M (list frame) (string * string) :=
  cmd ← read_str;
  unpack3 (PyStr.split cmd).

(** [dict(read_kv(sock) for _ in range(n))]: pairs are read one by one, a
    later pair for the same key replaces the earlier one. *)
Fixpoint read_dict (n : nat) (acc : Store) : M (list frame) Store :=
  match n with
  | 0 => mret acc
  | S n' => '(k, v) ← read_kv; read_dict n' (<[k := v]> acc)
  end.

(** The body of the [with] block of [bootstrap_kv], on the frames the
    seed answers with; [range(None)] is a [TypeError]. *)
Definition bootstrap_exchange : M (list frame) Store :=
  send_str (Some "bootstrap");;
  n ← read_uint32;
  match n with
  | Some n => read_dict n ∅
  | None => raise TypeError
  end.

(** [with one_time_socket(ip, port) as sock: body].  [peer] is what the
    connection finds: nothing listening ([None]), or the frames the peer
    will answer with.  The socket is closed on every way out. *)
Definition one_time_socket {S A} (port : N) (peer : option (list frame))
    (body : M (list frame) A) : M S A :=
  λ s,
    match peer with
    | None => Run (Raise OSError) s [SeedClose]
    | Some frames =>
        let r := body frames in
        Run (res r) s (SeedConnect port :: trace r ++ [SeedClose])
    end.

(** [bootstrap_kv] *)
Definition bootstrap_kv {S} (seed_port : N) (peer : option (list frame))
    : M S Store :=
  one_time_socket seed_port peer bootstrap_exchange.

(** What a peer reads of a trace of the listener. *)
Definition frames_of (t : list effect) : list frame :=
  omap (λ e, match e with
             | SendUint32 n => Some (FUint32 n)
             | SendStr (Some s) => Some (FStr s)
             | _ => None
             end) t.

(** [kv.update(other)]: the entries of [other] replace those of [kv]. *)
Definition dict_update (kv other : Store) : Store := other ∪ kv.

(** ** Start-up *)

Definition lift_outcome {S A} (o : outcome A) : M S A :=
  match o with
  | Ok a => mret a
  | Raise e => raise e
  end.

(** [if seed_port:] is taken for a port that is given and not zero. *)
Definition truthy (seed_port : option N) : option N :=
  match seed_port with
  | Some (Npos p) => Some (Npos p)
  | _ => None
  end.

(** Lines 182-186 of [main]: replay the log, then merge the seed's data.
    The state is the dictionary [kv] of [main]. *)
Definition main_recover (seed_port : option N) (f : log_file)
    (seed : option (list frame)) : M Store unit :=
  kv ← lift_outcome (restore_from_file f);
  put_state kv;;
  match truthy seed_port with
  | Some sp =>
      other ← bootstrap_kv sp seed;
      kv ← get_state;
      put_state (dict_update kv other)
  | None => mret ()
  end.

(** Lines 188-223 of [main], up to the accept loop, which then hands each
    accepted connection to a thread running [handle_client].  Opening the
    log and binding the sockets are taken to succeed. *)
Definition main_serve (port gossip_port : N) (seed_port : option N)
    : M Store unit :=
  emit LogOpen;;
  emit (GossipNew port gossip_port);;
  match truthy seed_port with
  | Some sp => emit (GossipSeed sp)
  | None => mret ()
  end;;
  emit GossipStart;;
  emit (ThreadStart "replication-listen-thread");;
  emit (ThreadStart "replication-broadcast-thread");;
  emit (ClientListen port);;
  emit SignalHandlers.

(** [main]; [f] is the log file found on disk and [seed] what the
    connection to the seed finds. *)
Definition main (port gossip_port : N) (seed_port : option N) (f : log_file)
    (seed : option (list frame)) : M Store unit :=
  main_recover seed_port f seed;;
  main_serve port gossip_port seed_port.

(** ** Projections of a trace *)

Definition log_writes (t : list effect) : list string :=
  omap (λ e, match e with LogWrite s => Some s | _ => None end) t.

Definition queue_puts (t : list effect) : list string :=
  omap (λ e, match e with QueuePut s => Some s | _ => None end) t.

(** The line [handle_client] leaves in the log for [set k v]. *)
Definition log_line (k v : string) : string := set_line k v +:+ newline.

(** ** Vocabulary of the statements *)

(** A delivery that goes through: connect, send, close. *)
Definition attempt (data : string) (p : NodeParams) : list effect :=
  [PeerConnect p; PeerSend p data; PeerClose p].

(** A snapshot of peers, all of them reached. *)
Definition ok_peers (ps : list NodeParams) : list (NodeParams * fate) :=
  (λ p, (p, Delivered)) <$> ps.

Definition ok_entries (es : list (string * list NodeParams))
    : list (string * list (NodeParams * fate)) :=
  (λ e, (e.1, ok_peers e.2)) <$> es.

(** Every entry to every peer of its snapshot, in order. *)
Definition full_broadcast (es : list (string * list NodeParams))
    : list effect :=
  flat_map (λ e, flat_map (attempt e.1) e.2) es.

(** What serving one entry of a bootstrap request does. *)
Definition served_entry (cmd : string) (e : string * string) : list effect :=
  [SendStr (Some (set_line e.1 e.2)); LogWrite cmd; LogWrite newline;
   LogFlush].

(** The log file that holds one line [set <key> <value>] for each entry,
    in order: the text [set], a space, the key, a space, the value and a
    line feed. *)
Definition log_lines (es : list (string * string)) : list string :=
  (λ e, log_line e.1 e.2) <$> es.

(** Every key and every value of the entries is a word. *)
Definition word_entries (es : list (string * string)) : Prop :=
  Forall (λ e, PyStr.word e.1 = true ∧ PyStr.word e.2 = true) es.

(** The writes of a list of entries, applied in order. *)
Definition apply_entries (kv : Store) (es : list (string * string)) : Store :=
  foldl (λ m e, <[e.1 := e.2]> m) kv es.

(** The frames a seed holding [seed_kv] answers a bootstrap request with. *)
Definition seed_reply (seed_kv : Store) : list frame :=
  frames_of (trace (replication_listen_step "bootstrap" seed_kv)).

(** Every key and every value is a word. *)
Definition words_only (seed_kv : Store) : Prop :=
  map_Forall (λ k v, PyStr.word k = true ∧ PyStr.word v = true) seed_kv.

(** Inputs of the examples. *)
Definition peer1 : NodeParams := {| ip := "127.0.0.1"; gossip_port := 9001 |}.
Definition peer2 : NodeParams := {| ip := "127.0.0.1"; gossip_port := 9002 |}.

(** The key [a] followed by a tab. *)
Definition tab_key : string := String "a" (String (ascii_of_nat 9) EmptyString).

(** The content of a text file after a list of [write] calls. *)
Definition file_content (writes : list string) : string :=
  foldr String.append EmptyString writes.

(** [for line in fp] on a file opened in text mode: a line ends with a line
    feed, a carriage return or both, and is yielded with a line feed in
    their place; a last line without one is yielded as it is. *)
Fixpoint text_lines (s : string) : list string :=
  match s with
  | EmptyString => []
  | String c r =>
      if Ascii.eqb c (ascii_of_nat 10) then newline :: text_lines r
      else if Ascii.eqb c (ascii_of_nat 13) then
        match r with
        | String c' r' =>
            if Ascii.eqb c' (ascii_of_nat 10) then newline :: text_lines r'
            else newline :: text_lines r
        | EmptyString => [newline]
        end
      else match text_lines r with
           | l :: ls => String c l :: ls
           | [] => [String c EmptyString]
           end
  end.

(** No key and no value holds a space. *)
Definition space_free (kv : Store) : Prop :=
  map_Forall (λ k v, PyStr.count " " k = 0 ∧ PyStr.count " " v = 0) kv.

(** The effects of [main] past the replay and the bootstrap. *)
Definition serving_effect (e : effect) : bool :=
  match e with
  | LogOpen | GossipNew _ _ | GossipSeed _ | GossipStart | ThreadStart _
  | ClientListen _ | SignalHandlers => true
  | _ => false
  end.

(** A [set] command whose key and value are words. *)
Definition word_set (data : string) : Prop :=
  ∃ k v, PyStr.word k = true ∧ PyStr.word v = true ∧ data = set_line k v.

(** No [send_str], [write] or [flush] of the session fails. *)
Definition no_io_failure (commands : list (string * option nat)) : Prop :=
  Forall (λ c, c.2 = None) commands.

(** * Properties *)

(** ** Strings *)

Section Strings.

Import PyStr.

Lemma count_app sep (a b : string) :
  count sep (a +:+ b) = count sep a + count sep b.
Proof.
  induction a as [|c a IH]; simpl; [done|]. rewrite IH. lia.
Qed.

Lemma split_on_length sep s : length (split_on sep s) = S (count sep s).
Proof.
  induction s as [|c s IH]; simpl; [done|].
  destruct (Ascii.eqb c sep); simpl; [by rewrite IH|].
  destruct (split_on sep s); simpl in *; lia.
Qed.

Lemma split_on_nosep sep s : count sep s = 0 → split_on sep s = [s].
Proof.
  induction s as [|c s IH]; simpl; [done|].
  destruct (Ascii.eqb c sep); simpl; [done|].
  intros H. by rewrite IH.
Qed.

Lemma split_on_app sep a b :
  count sep a = 0 → split_on sep (a +:+ String sep b) = a :: split_on sep b.
Proof.
  induction a as [|c a IH]; simpl.
  - intros _. by rewrite Ascii.eqb_refl.
  - destruct (Ascii.eqb c sep); simpl; [done|].
    intros H. by rewrite IH.
Qed.

(** Three fields of [a sep k sep v] with a separator-free head are
    exactly [a], [k] and [v]. *)
Lemma split_on_three sep a k v :
  count sep a = 0 →
  length (split_on sep (a +:+ String sep (k +:+ String sep v))) = 3 →
  split_on sep (a +:+ String sep (k +:+ String sep v)) = [a; k; v].
Proof.
  intros Ha. rewrite split_on_app by done. simpl.
  rewrite split_on_length, count_app. simpl. rewrite Ascii.eqb_refl.
  intros Hlen.
  rewrite split_on_app by lia. rewrite split_on_nosep by lia. done.
Qed.

Lemma split_space c r : isspace c = true → split (String c r) = split r.
Proof. intros H. simpl. by rewrite H. Qed.

Lemma split_word w : word w = true → split w = [w].
Proof.
  induction w as [|c w IH]; [done|].
  unfold word. cbn [nospace split]. intros [Hc Hw]%andb_prop.
  apply negb_true_iff in Hc. rewrite Hc.
  destruct w as [|c' w]; [done|].
  cbn [nospace] in Hw. pose proof Hw as [Hc' _]%andb_prop.
  apply negb_true_iff in Hc'. rewrite Hc'.
  by rewrite IH.
Qed.

Lemma split_word_app w c r :
  word w = true → isspace c = true →
  split (w +:+ String c r) = w :: split r.
Proof.
  intros Hw Hsp. induction w as [|a w IH]; [done|].
  revert Hw. unfold word. cbn [nospace]. intros [Ha Hw]%andb_prop.
  apply negb_true_iff in Ha.
  change (String a w +:+ String c r) with (String a (w +:+ String c r)).
  cbn [split]. rewrite Ha.
  destruct w as [|a' w].
  - simpl. rewrite Hsp. done.
  - change (String a' w +:+ String c r) with (String a' (w +:+ String c r)).
    cbn [nospace] in Hw. pose proof Hw as [Ha' _]%andb_prop.
    apply negb_true_iff in Ha'. rewrite Ha'.
    change (String a' (w +:+ String c r)) with (String a' w +:+ String c r).
    by rewrite IH.
Qed.

Lemma rstrip_head c s c' s' : rstrip (String c s) = String c' s' → c' = c.
Proof.
  cbn [rstrip]. destruct (rstrip s); [destruct (isspace c)|]; congruence.
Qed.

Lemma split_cons c s :
  split (String c s) =
    if isspace c then split s
    else match s with
         | EmptyString => [String c EmptyString]
         | String c' _ =>
             if isspace c' then String c EmptyString :: split s
             else match split s with
                  | t :: ts => String c t :: ts
                  | [] => [String c EmptyString]
                  end
         end.
Proof. done. Qed.

(** [split] after [rstrip] is [split]. *)
Lemma rstrip_split s : split (rstrip s) = split s.
Proof.
  induction s as [|c s IH]; [done|].
  rewrite (split_cons c s).
  cbn [rstrip]. destruct (rstrip s) as [|c' s'] eqn:Hr.
  - (* the rest is all whitespace *)
    change (split "") with (@nil string) in IH.
    destruct (isspace c) eqn:Hc; [done|].
    rewrite split_cons, Hc. rewrite <- IH.
    destruct s as [|c2 s]; [done|]. by destruct (isspace c2).
  - destruct s as [|c2 s]; [done|].
    apply rstrip_head in Hr as Heq. subst c'.
    rewrite split_cons. rewrite IH.
    destruct (isspace c); done.
Qed.

End Strings.

(** ** Running computations *)

Lemma run_bind {S A B} (m : M S A) (f : A → M S B) s :
  (m ≫= f) s =
    match res (m s) with
    | Ok a => Run (res (f a (final (m s)))) (final (f a (final (m s))))
                  (trace (m s) ++ trace (f a (final (m s))))
    | Raise e => Run (Raise e) (final (m s)) (trace (m s))
    end.
Proof. done. Qed.

Lemma run_bind_raise {S A B} (m : M S A) (f : A → M S B) s e :
  res (m s) = Raise e → (m ≫= f) s = Run (Raise e) (final (m s)) (trace (m s)).
Proof. intros H. by rewrite run_bind, H. Qed.

Lemma run_eta {S A} (r : run S A) : r = Run (res r) (final r) (trace r).
Proof. by destruct r. Qed.

Lemma for_each_raise {S A} (body : A → M S unit) x l s e :
  res (body x s) = Raise e →
  for_each body (x :: l) s = Run (Raise e) (final (body x s)) (trace (body x s)).
Proof. intros H. simpl. by apply run_bind_raise. Qed.

Lemma startswith_app p s : PyStr.startswith (p +:+ s) p = true.
Proof.
  unfold PyStr.startswith. induction p as [|c p IH].
  - by destruct s.
  - simpl. destruct (ascii_dec c c); [done | congruence].
Qed.

(** ** The client handler *)

Section Client.

Implicit Types (data k v : string) (kv : Store).

(** What an accepted [set] does, in order. *)
Lemma handle_set_run data t k v kv :
  PyStr.startswith data "set " = true →
  PyStr.split_on " " data = [t; k; v] →
  handle_command data kv =
    Run (Ok ()) (<[k := v]> kv)
        [SendStr (Some "OK"); LogWrite data; LogWrite newline; LogFlush;
         QueuePut data].
Proof.
  intros Hs Hsplit. unfold handle_command. rewrite Hs, Hsplit. done.
Qed.

Lemma handle_set_malformed data kv :
  PyStr.startswith data "set " = true →
  length (PyStr.split_on " " data) ≠ 3 →
  handle_command data kv = Run (Raise ValueError) kv [].
Proof.
  intros Hs Hlen. unfold handle_command. rewrite Hs.
  destruct (PyStr.split_on " " data) as [|a [|b [|c [|d l]]]]; done.
Qed.

Lemma handle_get_run data t k kv :
  PyStr.startswith data "set " = false →
  PyStr.startswith data "get " = true →
  PyStr.split_on " " data = [t; k] →
  handle_command data kv = Run (Ok ()) kv [SendStr (kv !! k)].
Proof.
  intros Hs Hg Hsplit. unfold handle_command. rewrite Hs, Hg, Hsplit. done.
Qed.

Lemma handle_get_malformed data kv :
  PyStr.startswith data "set " = false →
  PyStr.startswith data "get " = true →
  length (PyStr.split_on " " data) ≠ 2 →
  handle_command data kv = Run (Raise ValueError) kv [].
Proof.
  intros Hs Hg Hlen. unfold handle_command. rewrite Hs, Hg.
  destruct (PyStr.split_on " " data) as [|a [|b [|c l]]]; done.
Qed.

(** The fields of a [set] command built from a key and a value: when
    there are three of them they are the key and the value. *)
Lemma set_line_fields k v :
  length (PyStr.split_on " " (set_line k v)) = 3 →
  PyStr.split_on " " (set_line k v) = ["set"; k; v].
Proof.
  change (set_line k v) with ("set" +:+ String " " (k +:+ String " " v)).
  by apply split_on_three.
Qed.

(** C2, at the command [set a 1] on an empty store: the handler sends
    [OK] first, and only then writes the line to the log, flushes it and
    queues the write; the acknowledgment does not wait for the log. *)
Theorem set_acknowledged_before_log_append :
  trace (handle_command "set a 1" ∅) =
    [SendStr (Some "OK"); LogWrite "set a 1"; LogWrite newline; LogFlush;
     QueuePut "set a 1"].
Proof. reflexivity. Qed.

(** C5, as the code has it: a command that begins with [set ] but has
    not exactly three space-separated fields, or begins with [get ] but
    has not exactly two, is not answered as unknown input.  Unpacking its
    fields raises [ValueError]: nothing is sent, nothing is changed, and
    the loop of [handle_client] ends there, whatever follows on the
    connection. *)
Theorem malformed_command_raises data kv :
  (PyStr.startswith data "set " = true
   ∧ length (PyStr.split_on " " data) ≠ 3)
  ∨ (PyStr.startswith data "set " = false
     ∧ PyStr.startswith data "get " = true
     ∧ length (PyStr.split_on " " data) ≠ 2) →
  handle_command data kv = Run (Raise ValueError) kv []
  ∧ ∀ rest, handle_client (data :: rest) kv = Run (Raise ValueError) kv [].
Proof.
  intros H.
  assert (handle_command data kv = Run (Raise ValueError) kv []) as Hrun.
  { destruct H as [[Hs Hlen]|(Hs & Hg & Hlen)].
    - by apply handle_set_malformed.
    - by apply handle_get_malformed. }
  split; [done|]. intros rest. unfold handle_client.
  rewrite (for_each_raise _ _ _ _ ValueError); by rewrite Hrun.
Qed.

Lemma malformed_command_raises_witness :
  handle_command "set a" ∅ = Run (Raise ValueError) ∅ []
  ∧ ∀ rest, handle_client ("set a" :: rest) ∅ = Run (Raise ValueError) ∅ [].
Proof.
  apply (malformed_command_raises "set a" ∅).
  left. split; [reflexivity | vm_compute; lia].
Defined.

(** C5 as stated fails: [set a] has two fields; the handler raises
    [ValueError] and never sends the error marker. *)
Lemma malformed_set_is_fatal :
  res (handle_client ["set a"] ∅) = Raise ValueError
  ∧ SendStr (Some error_marker) ∉ trace (handle_client ["set a"] ∅).
Proof.
  split; [reflexivity|]. vm_compute. inversion 1.
Qed.

(** C8: a [set k v] that is acknowledged with [OK], followed by [get k]
    on the same store, is answered with [v]. *)
Theorem read_after_write k v kv :
  SendStr (Some "OK") ∈ trace (handle_command (set_line k v) kv) →
  handle_command ("get " +:+ k) (final (handle_command (set_line k v) kv))
  = Run (Ok ()) (final (handle_command (set_line k v) kv))
        [SendStr (Some v)].
Proof.
  intros Hack.
  assert (PyStr.startswith (set_line k v) "set " = true) as Hs
    by apply startswith_app.
  destruct (decide (length (PyStr.split_on " " (set_line k v)) = 3))
    as [Hlen|Hlen].
  - apply set_line_fields in Hlen as Hf.
    rewrite (handle_set_run _ _ _ _ _ Hs Hf). simpl.
    assert (PyStr.count " " k = 0) as Hk.
    { revert Hlen.
      change (set_line k v) with ("set" +:+ String " " (k +:+ String " " v)).
      rewrite split_on_app by done. simpl.
      rewrite split_on_length, count_app. simpl. lia. }
    rewrite (handle_get_run ("get " +:+ k) "get" k).
    + by rewrite lookup_insert_eq.
    + done.
    + apply startswith_app.
    + change ("get " +:+ k) with (String "g" (String "e" (String "t" (String " " k)))).
      simpl. by rewrite split_on_nosep.
  - rewrite handle_set_malformed in Hack by done. inversion Hack.
Qed.

Lemma read_after_write_witness :
  handle_command "get a" (final (handle_command "set a 1" ∅))
  = Run (Ok ()) (final (handle_command "set a 1" ∅)) [SendStr (Some "1")].
Proof.
  apply (read_after_write "a" "1" ∅).
  vm_compute. apply list_elem_of_here.
Defined.

(** C9: an input that begins with neither [set ] nor [get ] is answered
    with the error marker and nothing else happens: the store is the
    same, nothing is written to the log and nothing is queued. *)
Theorem unknown_command_rejected data kv :
  PyStr.startswith data "set " = false →
  PyStr.startswith data "get " = false →
  res (handle_command data kv) = Ok ()
  ∧ final (handle_command data kv) = kv
  ∧ trace (handle_command data kv) = [SendStr (Some error_marker)]
  ∧ log_writes (trace (handle_command data kv)) = []
  ∧ queue_puts (trace (handle_command data kv)) = [].
Proof.
  intros Hs Hg. unfold handle_command. rewrite Hs, Hg. done.
Qed.

Lemma unknown_command_rejected_witness :
  res (handle_command "del a" ∅) = Ok ()
  ∧ final (handle_command "del a" ∅) = ∅
  ∧ trace (handle_command "del a" ∅) = [SendStr (Some error_marker)]
  ∧ log_writes (trace (handle_command "del a" ∅)) = []
  ∧ queue_puts (trace (handle_command "del a" ∅)) = [].
Proof.
  apply (unknown_command_rejected "del a" ∅); reflexivity.
Defined.

End Client.

(** ** Loops *)

Lemma for_each_app {S A} (body : A → M S unit) l1 l2 s :
  for_each body (l1 ++ l2) s = (for_each body l1;; for_each body l2) s.
Proof.
  revert s. induction l1 as [|x l1 IH]; intros s.
  - simpl. rewrite run_bind. simpl. apply run_eta.
  - simpl. rewrite !run_bind.
    destruct (res (body x s)) as [[]|e]; [|done].
    rewrite IH, !run_bind. simpl.
    destruct (res (for_each body l1 (final (body x s)))) as [[]|e]; simpl.
    + by rewrite app_assoc.
    + done.
Qed.

(** The round that raises ends the loop. *)
Lemma for_each_stops {S A} (body : A → M S unit) l1 x l2 s s1 t1 s2 t2 e :
  for_each body l1 s = Run (Ok ()) s1 t1 →
  body x s1 = Run (Raise e) s2 t2 →
  for_each body (l1 ++ x :: l2) s = Run (Raise e) s2 (t1 ++ t2).
Proof.
  intros H1 H2. rewrite for_each_app, run_bind, H1. cbn [res final trace].
  cbn [for_each]. by rewrite run_bind, H2.
Qed.

(** A loop whose body neither raises nor touches the state only
    accumulates the effects of its rounds. *)
Lemma for_each_pure {S A} (body : A → M S unit) (t : A → list effect) l s :
  (∀ x s', body x s' = Run (Ok ()) s' (t x)) →
  for_each body l s = Run (Ok ()) s (flat_map t l).
Proof.
  intros Hbody. induction l as [|x l IH]; [done|].
  simpl. rewrite run_bind, Hbody. simpl. by rewrite IH.
Qed.

(** ** The replication broadcaster *)

Section Broadcast.

Context {S : Type}.
Implicit Types (s : S) (p : NodeParams) (data : string).

Lemma deliver_ok data ps s :
  for_each (deliver data) (ok_peers ps) s
  = Run (Ok ()) s (flat_map (attempt data) ps).
Proof.
  induction ps as [|p ps IH]; [done|].
  cbn [ok_peers fmap list_fmap for_each]. rewrite run_bind. simpl.
  fold (ok_peers ps). by rewrite IH.
Qed.

Lemma deliver_fails data p f s :
  f ≠ Delivered →
  deliver data (p, f) s
  = Run (Raise OSError) s (if f is SendFails then [PeerConnect p] else []).
Proof. by destruct f. Qed.

Lemma broadcast_ok es s :
  replication_broadcast_loop (ok_entries es) s
  = Run (Ok ()) s (full_broadcast es).
Proof.
  unfold replication_broadcast_loop, full_broadcast.
  induction es as [|[data ps] es IH]; [done|].
  cbn [ok_entries fmap list_fmap for_each]. rewrite run_bind. simpl.
  rewrite deliver_ok. simpl. fold (ok_entries es). by rewrite IH.
Qed.

(** C3, as the code has it: the peers of a snapshot are tried in order.
    While every attempt goes through, every peer of every snapshot gets
    its entry and the loop goes on to the next entry.  The first attempt
    that fails, in connecting or in sending, raises out of the loop: the
    peers after it in the snapshot and the entries after it in the queue
    are not attempted. *)
Theorem broadcast_stops_at_first_failure
    es done data ok p f rest later s :
  f ≠ Delivered →
  replication_broadcast_loop (ok_entries es) s
  = Run (Ok ()) s (full_broadcast es)
  ∧ replication_broadcast_loop
      (ok_entries done ++ (data, ok_peers ok ++ (p, f) :: rest) :: later) s
    = Run (Raise OSError) s
          (full_broadcast done ++ flat_map (attempt data) ok
           ++ (if f is SendFails then [PeerConnect p] else [])).
Proof.
  intros Hf. split; [apply broadcast_ok|].
  unfold replication_broadcast_loop at 1.
  eapply for_each_stops; [apply broadcast_ok|].
  eapply for_each_stops; [apply deliver_ok|].
  by apply deliver_fails.
Qed.

End Broadcast.

Lemma broadcast_stops_at_first_failure_witness :
  replication_broadcast_loop (ok_entries [("set a 1", [peer1; peer2])]) ()
  = Run (Ok ()) () (full_broadcast [("set a 1", [peer1; peer2])])
  ∧ replication_broadcast_loop
      (ok_entries [] ++
       ("set b 2", ok_peers [] ++ (peer1, ConnectFails) :: [(peer2, Delivered)])
       :: [("set c 3", [(peer2, Delivered)])]) ()
    = Run (Raise OSError) ()
          (full_broadcast [] ++ flat_map (attempt "set b 2") [] ++ []).
Proof.
  apply (broadcast_stops_at_first_failure
           [("set a 1", [peer1; peer2])] [] "set b 2" [] peer1 ConnectFails
           [(peer2, Delivered)] [("set c 3", [(peer2, Delivered)])] ()).
  discriminate.
Defined.

(** C3 as stated fails: with [peer1] refusing the connection, the loop
    raises and [peer2] is never tried, for this entry or the next. *)
Lemma unreachable_peer_stops_broadcast :
  res (replication_broadcast_loop
         [("set b 2", [(peer1, ConnectFails); (peer2, Delivered)]);
          ("set c 3", [(peer2, Delivered)])] ()) = Raise OSError
  ∧ PeerConnect peer2 ∉
      trace (replication_broadcast_loop
               [("set b 2", [(peer1, ConnectFails); (peer2, Delivered)]);
                ("set c 3", [(peer2, Delivered)])] ()).
Proof.
  split; [reflexivity|]. vm_compute. inversion 1.
Qed.

(** ** The replication listener *)

Section Listener.

Implicit Types (cmd k v : string) (kv : Store).

Lemma listen_bootstrap_run cmd kv :
  is_bootstrap cmd = true →
  replication_listen_step cmd kv
  = Run (Ok ()) kv
        (SendUint32 (size kv) :: flat_map (served_entry cmd) (map_to_list kv)).
Proof.
  intros Hb. unfold replication_listen_step. rewrite Hb.
  rewrite run_bind. cbn [get_state res final trace].
  rewrite run_bind. cbn [send_uint32 emit res final trace].
  rewrite (for_each_pure _ (served_entry cmd)); [done|].
  by intros [k v] kv'.
Qed.

Lemma listen_set_run cmd t k v kv :
  is_bootstrap cmd = false →
  PyStr.startswith cmd "set " = true →
  PyStr.split_on " " cmd = [t; k; v] →
  replication_listen_step cmd kv = Run (Ok ()) (<[k := v]> kv) [].
Proof.
  intros Hb Hs Hsplit. unfold replication_listen_step.
  rewrite Hb, Hs, Hsplit. done.
Qed.

Lemma listen_other_run cmd kv :
  is_bootstrap cmd = false →
  PyStr.startswith cmd "set " = false →
  replication_listen_step cmd kv = Run (Ok ()) kv [].
Proof.
  intros Hb Hs. unfold replication_listen_step. by rewrite Hb, Hs.
Qed.

Lemma listen_set_malformed cmd kv :
  is_bootstrap cmd = false →
  PyStr.startswith cmd "set " = true →
  length (PyStr.split_on " " cmd) ≠ 3 →
  replication_listen_step cmd kv = Run (Raise AssertionError) kv [].
Proof.
  intros Hb Hs Hlen. unfold replication_listen_step. rewrite Hb, Hs.
  cbn [negb]. rewrite run_bind.
  apply Nat.eqb_neq in Hlen. by rewrite Hlen.
Qed.

(** A write that arrives by replication is applied to the store and
    leaves no line in the log, nor does any other message that is not a
    bootstrap request. *)
Lemma propagated_write_not_logged cmd kv :
  is_bootstrap cmd = false →
  log_writes (trace (replication_listen_step cmd kv)) = [].
Proof.
  intros Hb.
  destruct (PyStr.startswith cmd "set ") eqn:Hs;
    [|by rewrite listen_other_run].
  destruct (decide (length (PyStr.split_on " " cmd) = 3)) as [Hlen|Hlen];
    [|by rewrite listen_set_malformed].
  destruct (PyStr.split_on " " cmd) as [|t [|k [|v [|? ?]]]] eqn:Hsplit;
    try done.
  by rewrite (listen_set_run cmd t k v).
Qed.

(** The lines a bootstrap request leaves in the log: the text of the
    request, once for every entry served. *)
Lemma bootstrap_log_writes cmd kv :
  is_bootstrap cmd = true →
  log_writes (trace (replication_listen_step cmd kv))
  = flat_map (λ _, [cmd; newline]) (map_to_list kv).
Proof.
  intros Hb. rewrite listen_bootstrap_run by done. cbn [trace].
  change (log_writes (SendUint32 (size kv) :: ?t)) with (log_writes t).
  induction (map_to_list kv) as [|e l IH]; [done|].
  change (flat_map (served_entry cmd) (e :: l))
    with (served_entry cmd e ++ flat_map (served_entry cmd) l).
  unfold log_writes in *. rewrite omap_app, IH. done.
Qed.

(** C1, at the request [bootstrap] on the store [{a: 1}]: the listener
    answers with the count and the line [set a 1], but the line it
    appends to the log is the text of the request, [bootstrap], not
    [set a 1]; and a log with that line cannot be replayed. *)
Theorem bootstrap_appends_request_text :
  trace (replication_listen_step "bootstrap" {["a" := "1"]})
  = [SendUint32 1; SendStr (Some "set a 1");
     LogWrite "bootstrap"; LogWrite newline; LogFlush]
  ∧ restore_from_file (Lines ["bootstrap" +:+ newline]) = Raise ValueError.
Proof. split; reflexivity. Qed.

(** C4, as the code has it: a message that is not a bootstrap request
    and does not begin with [set ] is dropped, and the listener goes on
    to the next connection.  A message that begins with [set ] without
    having exactly three space-separated fields fails the assertion of
    the listener: [AssertionError] leaves the loop, and no later message
    is served.  In both cases the store is left as it was. *)
Theorem listener_unrecognised_message cmd kv rest :
  is_bootstrap cmd = false →
  PyStr.startswith cmd "set " = false
  ∨ length (PyStr.split_on " " cmd) ≠ 3 →
  replication_listen_step cmd kv
  = Run (if PyStr.startswith cmd "set " then Raise AssertionError
         else Ok ()) kv []
  ∧ replication_listen_loop (cmd :: rest) kv
    = if PyStr.startswith cmd "set " then Run (Raise AssertionError) kv []
      else replication_listen_loop rest kv.
Proof.
  intros Hb H. destruct (PyStr.startswith cmd "set ") eqn:Hs.
  - destruct H as [|Hlen]; [done|].
    pose proof (listen_set_malformed cmd kv Hb Hs Hlen) as Hrun.
    split; [done|]. unfold replication_listen_loop.
    rewrite (for_each_raise _ _ _ _ AssertionError); by rewrite Hrun.
  - pose proof (listen_other_run cmd kv Hb Hs) as Hrun.
    split; [done|]. unfold replication_listen_loop. cbn [for_each].
    rewrite run_bind, Hrun. cbn [res final trace app].
    symmetry. apply run_eta.
Qed.

Lemma listener_unrecognised_message_witness :
  replication_listen_step "set a" ∅ = Run (Raise AssertionError) ∅ []
  ∧ replication_listen_loop ["set a"; "set b 1"] ∅
    = Run (Raise AssertionError) ∅ [].
Proof.
  apply (listener_unrecognised_message "set a" ∅ ["set b 1"]).
  - reflexivity.
  - right. vm_compute. lia.
Defined.

(** C4 as stated fails: [set a] has two fields; the listener raises
    [AssertionError], and the well-formed write behind it is never
    applied. *)
Lemma malformed_set_stops_listener :
  res (replication_listen_loop ["set a"; "set b 1"] ∅) = Raise AssertionError
  ∧ final (replication_listen_loop ["set a"; "set b 1"] ∅) !! "b" = None.
Proof. split; reflexivity. Qed.

End Listener.

(** ** Log replay *)

Section Replay.

Implicit Types (line k v : string) (kv : Store)
  (es : list (string * string)).

Lemma apply_entries_app kv es1 es2 :
  apply_entries kv (es1 ++ es2) = apply_entries (apply_entries kv es1) es2.
Proof. apply foldl_app. Qed.

Lemma apply_entries_absent kv es k :
  k ∉ es.*1 → apply_entries kv es !! k = kv !! k.
Proof.
  revert kv. induction es as [|[k' v'] es IH]; intros kv Hk; [done|].
  rewrite fmap_cons, not_elem_of_cons in Hk. destruct Hk as [Hne Hk].
  cbn [apply_entries foldl]. fold (apply_entries (<[k' := v']> kv) es).
  rewrite IH by done. by apply lookup_insert_ne.
Qed.

Lemma apply_entries_last kv pre k v post :
  k ∉ post.*1 → apply_entries kv (pre ++ (k, v) :: post) !! k = Some v.
Proof.
  intros Hk. rewrite apply_entries_app.
  cbn [apply_entries foldl].
  fold (apply_entries (<[k := v]> (apply_entries kv pre)) post).
  rewrite apply_entries_absent by done. apply lookup_insert_eq.
Qed.

(** The loop over the lines raises nothing but [ValueError]. *)
Lemma restore_lines_raise lines kv e :
  restore_lines lines kv = Raise e → e = ValueError.
Proof.
  revert kv. induction lines as [|line lines IH]; intros kv; [done|].
  cbn [restore_lines].
  destruct (PyStr.split (PyStr.rstrip line)) as [|? [|? [|? [|? ?]]]];
    try congruence.
  apply IH.
Qed.

Lemma append_assoc (a b c : string) : (a +:+ b) +:+ c = a +:+ (b +:+ c).
Proof.
  induction a as [|x a IH]; [done|].
  change (String x ((a +:+ b) +:+ c) = String x (a +:+ (b +:+ c))).
  by rewrite IH.
Qed.

(** The fields of [set k v], for a key and a value that are words. *)
Lemma set_line_split k v :
  PyStr.word k = true → PyStr.word v = true →
  PyStr.split (set_line k v) = ["set"; k; v].
Proof.
  intros Hk Hv. unfold set_line.
  change ("set " +:+ k +:+ " " +:+ v)
    with ("set" +:+ String " " (k +:+ String " " v)).
  rewrite split_word_app by done.
  rewrite split_word_app by done.
  by rewrite split_word.
Qed.

(** The line that [handle_client] writes for [set k v] is read back as
    that key and that value, when both are words. *)
Lemma log_line_fields k v :
  PyStr.word k = true → PyStr.word v = true →
  PyStr.split (PyStr.rstrip (log_line k v)) = ["set"; k; v].
Proof.
  intros Hk Hv. unfold log_line, set_line, newline.
  rewrite rstrip_split.
  rewrite !append_assoc.
  change ("set " +:+ k +:+ " " +:+ v +:+ String (ascii_of_nat 10) "")
    with ("set" +:+ String " " (k +:+ String " "
            (v +:+ String (ascii_of_nat 10) ""))).
  rewrite split_word_app by done.
  rewrite split_word_app by done.
  by rewrite split_word_app.
Qed.

Lemma restore_lines_ok es kv :
  word_entries es →
  restore_lines (log_lines es) kv = Ok (apply_entries kv es).
Proof.
  intros H. revert kv.
  induction H as [|[k v] es [Hk Hv] _ IH]; intros kv; [done|].
  cbn [log_lines fmap list_fmap restore_lines fst snd].
  rewrite log_line_fields by done. apply IH.
Qed.

(** C7, as the code has it: replaying a log whose lines are
    [set <key> <value>] with keys and values that are words (not empty, no
    whitespace) succeeds, and in the store it builds every key has the
    value of the last line that sets it; a key that no line sets is
    absent. *)
Theorem replay_of_word_lines_last_wins es :
  word_entries es →
  ∃ kv, restore_from_file (Lines (log_lines es)) = Ok kv
    ∧ (∀ pre k v post,
          es = pre ++ (k, v) :: post → k ∉ post.*1 → kv !! k = Some v)
    ∧ (∀ k, k ∉ es.*1 → kv !! k = None).
Proof.
  intros H. exists (apply_entries ∅ es). split; [|split].
  - unfold restore_from_file, restore_body. cbn [open_kv_log].
    by rewrite restore_lines_ok.
  - intros pre k v post -> Hk. by apply apply_entries_last.
  - intros k Hk. by rewrite apply_entries_absent.
Qed.

Lemma replay_of_word_lines_last_wins_witness :
  ∃ kv, restore_from_file
          (Lines (log_lines [("a", "1"); ("b", "2"); ("a", "3")]))
        = Ok kv
    ∧ (∀ pre k v post,
          [("a", "1"); ("b", "2"); ("a", "3")] = pre ++ (k, v) :: post →
          k ∉ post.*1 → kv !! k = Some v)
    ∧ (∀ k, k ∉ [("a", "1"); ("b", "2"); ("a", "3")].*1 → kv !! k = None).
Proof.
  apply (replay_of_word_lines_last_wins [("a", "1"); ("b", "2"); ("a", "3")]).
  repeat constructor.
Defined.

(** C7 as stated fails.  For the client command [set k ], with an empty
    value, the handler answers [OK] and writes the line [set k ] to the
    log; replaying the file with that line raises [ValueError] and builds
    no store.  And the line written for the key [tab_key] with the value
    [b] is replayed as the key [a]: the key of the line has no value. *)
Lemma replay_misreads_logged_lines :
  log_writes (trace (handle_command "set k " ∅)) = ["set k "; newline]
  ∧ restore_from_file (Lines (log_lines [("k", "")])) = Raise ValueError
  ∧ restore_from_file (Lines (log_lines [(tab_key, "b")]))
    = Ok {["a" := "b"]}
  ∧ ({["a" := "b"]} : Store) !! tab_key = None.
Proof. repeat split; vm_compute; reflexivity. Qed.

(** C10: when the log file does not exist the replay yields the empty
    store and start-up goes on; any other failure of the replay, be it
    in opening the file or in reading a line, is raised to the caller. *)
Theorem missing_log_gives_empty_store f e port gport :
  f ≠ Missing →
  restore_body f ∅ = Raise e →
  restore_from_file Missing = Ok ∅
  ∧ res (main port gport None Missing None ∅) = Ok ()
  ∧ final (main port gport None Missing None ∅) = ∅
  ∧ restore_from_file f = Raise e.
Proof.
  intros Hf He. repeat split.
  unfold restore_from_file. rewrite He.
  destruct f as [| |lines]; [done| |].
  - cbn in He. by inversion He.
  - cbn in He. by apply restore_lines_raise in He as ->.
Qed.

Lemma missing_log_gives_empty_store_witness :
  restore_from_file Missing = Ok ∅
  ∧ res (main 9000 9100 None Missing None ∅) = Ok ()
  ∧ final (main 9000 9100 None Missing None ∅) = ∅
  ∧ restore_from_file Unreadable = Raise PermissionError.
Proof.
  apply (missing_log_gives_empty_store Unreadable PermissionError 9000 9100).
  - discriminate.
  - reflexivity.
Defined.

End Replay.

(** ** Bootstrap *)

Section Bootstrap.

Implicit Types (k v : string) (kv local seed_kv : Store)
  (es : list (string * string)).

Lemma seed_reply_frames seed_kv :
  seed_reply seed_kv
  = FUint32 (length (map_to_list seed_kv))
    :: ((λ e, FStr (set_line e.1 e.2)) <$> map_to_list seed_kv).
Proof.
  unfold seed_reply. rewrite listen_bootstrap_run by done. cbn [trace].
  rewrite length_map_to_list.
  change (frames_of (SendUint32 ?n :: ?t)) with (FUint32 n :: frames_of t).
  f_equal. induction (map_to_list seed_kv) as [|e l IH]; [done|].
  change (flat_map (served_entry "bootstrap") (e :: l))
    with (served_entry "bootstrap" e ++ flat_map (served_entry "bootstrap") l).
  unfold frames_of in *. rewrite omap_app, IH. done.
Qed.

Lemma read_kv_ok k v sock :
  PyStr.word k = true → PyStr.word v = true →
  read_kv (FStr (set_line k v) :: sock) = Run (Ok (k, v)) sock [].
Proof.
  intros Hk Hv. unfold read_kv. rewrite run_bind.
  cbn [read_str res final trace]. by rewrite set_line_split.
Qed.

Lemma read_dict_ok es acc sock :
  Forall (λ e, PyStr.word e.1 = true ∧ PyStr.word e.2 = true) es →
  read_dict (length es) acc (((λ e, FStr (set_line e.1 e.2)) <$> es) ++ sock)
  = Run (Ok (apply_entries acc es)) sock [].
Proof.
  intros H. revert acc.
  induction H as [|[k v] es [Hk Hv] _ IH]; intros acc; [done|].
  cbn [length read_dict fmap list_fmap app fst snd].
  rewrite run_bind, read_kv_ok by done. cbn [res final trace].
  fold (list_fmap _ _ (λ e : string * string, FStr (set_line e.1 e.2)) es).
  rewrite (IH (<[k := v]> acc)). done.
Qed.

(** Inserting the entries of a dictionary one by one rebuilds it. *)
Lemma apply_entries_union es acc :
  NoDup es.*1 → apply_entries acc es = list_to_map es ∪ acc.
Proof.
  revert acc. induction es as [|[k v] es IH]; intros acc Hnd.
  - cbn. by rewrite (left_id_L ∅ (∪)).
  - rewrite fmap_cons, NoDup_cons in Hnd. destruct Hnd as [Hk Hnd].
    cbn [apply_entries foldl list_to_map foldr fst snd uncurry].
    fold (apply_entries (<[k := v]> acc) es).
    fold (list_to_map (M := Store) es).
    rewrite IH by done.
    rewrite <- insert_union_l.
    by rewrite insert_union_r by by apply not_elem_of_list_to_map_1.
Qed.

Lemma apply_entries_map_to_list kv : apply_entries ∅ (map_to_list kv) = kv.
Proof.
  rewrite apply_entries_union by apply NoDup_fst_map_to_list.
  by rewrite list_to_map_to_list, (right_id_L ∅ (∪)).
Qed.

(** The exchange with a seed whose keys and values are all words
    returns the dictionary of the seed. *)
Lemma bootstrap_kv_ok {S} (sp : N) seed_kv (s : S) :
  words_only seed_kv →
  bootstrap_kv sp (Some (seed_reply seed_kv)) s
  = Run (Ok seed_kv) s [SeedConnect sp; SendStr (Some "bootstrap"); SeedClose].
Proof.
  intros Hw. unfold bootstrap_kv, one_time_socket.
  assert (bootstrap_exchange (seed_reply seed_kv)
          = Run (Ok seed_kv) [] [SendStr (Some "bootstrap")]) as ->; [|done].
  unfold bootstrap_exchange. rewrite seed_reply_frames.
  rewrite run_bind. cbn [send_str emit res final trace].
  rewrite run_bind. cbn [read_uint32 res final trace].
  rewrite <- (app_nil_r (_ <$> map_to_list seed_kv)).
  rewrite read_dict_ok.
  - by rewrite apply_entries_map_to_list.
  - apply map_Forall_to_list in Hw.
    eapply Forall_impl; [exact Hw|]. by intros [k v].
Qed.

Lemma main_recover_ok sp f local seed_kv :
  restore_from_file f = Ok local →
  words_only seed_kv →
  main_recover (Some (Npos sp)) f (Some (seed_reply seed_kv)) ∅
  = Run (Ok ()) (dict_update local seed_kv)
        [SeedConnect (Npos sp); SendStr (Some "bootstrap"); SeedClose].
Proof.
  intros Hf Hw. unfold main_recover. rewrite Hf.
  rewrite run_bind. cbn [lift_outcome mret M_ret ret res final trace].
  rewrite run_bind. cbn [put_state res final trace truthy].
  rewrite run_bind, bootstrap_kv_ok by done. cbn [res final trace].
  done.
Qed.

(** C6, as the code has it: when every key and value that the seed
    serves is a word (not empty, no whitespace), the bootstrap completes;
    the store then maps every key of the seed to the value of the seed,
    and keeps the replayed value of every key that the seed does not
    have.  The merge is over, and the connection to the seed closed,
    before [main] opens the log, starts its threads and lets the client
    endpoint listen. *)
Theorem bootstrap_merges_seed_snapshot port gport sp f local seed_kv :
  restore_from_file f = Ok local →
  words_only seed_kv →
  res (main port gport (Some (Npos sp)) f (Some (seed_reply seed_kv)) ∅) = Ok ()
  ∧ (∀ k v, seed_kv !! k = Some v →
       final (main_recover (Some (Npos sp)) f (Some (seed_reply seed_kv)) ∅)
         !! k = Some v)
  ∧ (∀ k, seed_kv !! k = None →
       final (main_recover (Some (Npos sp)) f (Some (seed_reply seed_kv)) ∅)
         !! k = local !! k)
  ∧ final (main port gport (Some (Npos sp)) f (Some (seed_reply seed_kv)) ∅)
    = final (main_recover (Some (Npos sp)) f (Some (seed_reply seed_kv)) ∅)
  ∧ trace (main port gport (Some (Npos sp)) f (Some (seed_reply seed_kv)) ∅)
    = trace (main_recover (Some (Npos sp)) f (Some (seed_reply seed_kv)) ∅)
      ++ [LogOpen; GossipNew port gport; GossipSeed (Npos sp); GossipStart;
          ThreadStart "replication-listen-thread";
          ThreadStart "replication-broadcast-thread";
          ClientListen port; SignalHandlers]
  ∧ trace (main_recover (Some (Npos sp)) f (Some (seed_reply seed_kv)) ∅)
    = [SeedConnect (Npos sp); SendStr (Some "bootstrap"); SeedClose].
Proof.
  intros Hf Hw. unfold main.
  rewrite run_bind, (main_recover_ok sp f local seed_kv) by done.
  cbn [res final trace]. unfold dict_update.
  split; [done|]. split; [|split; [|done]].
  - intros k v Hk. by apply lookup_union_Some_l.
  - intros k Hk. by apply lookup_union_r.
Qed.

End Bootstrap.

Lemma bootstrap_merges_seed_snapshot_witness :
  res (main 9000 9100 (Some 9001%N) (Lines [log_line "a" "0"; log_line "z" "9"])
         (Some (seed_reply {["a" := "1"]})) ∅) = Ok ()
  ∧ (∀ k v, ({["a" := "1"]} : Store) !! k = Some v →
       final (main_recover (Some 9001%N)
                (Lines [log_line "a" "0"; log_line "z" "9"])
                (Some (seed_reply {["a" := "1"]})) ∅) !! k = Some v)
  ∧ (∀ k, ({["a" := "1"]} : Store) !! k = None →
       final (main_recover (Some 9001%N)
                (Lines [log_line "a" "0"; log_line "z" "9"])
                (Some (seed_reply {["a" := "1"]})) ∅) !! k
       = ({["a" := "0"; "z" := "9"]} : Store) !! k)
  ∧ final (main 9000 9100 (Some 9001%N)
             (Lines [log_line "a" "0"; log_line "z" "9"])
             (Some (seed_reply {["a" := "1"]})) ∅)
    = final (main_recover (Some 9001%N)
               (Lines [log_line "a" "0"; log_line "z" "9"])
               (Some (seed_reply {["a" := "1"]})) ∅)
  ∧ trace (main 9000 9100 (Some 9001%N)
             (Lines [log_line "a" "0"; log_line "z" "9"])
             (Some (seed_reply {["a" := "1"]})) ∅)
    = trace (main_recover (Some 9001%N)
               (Lines [log_line "a" "0"; log_line "z" "9"])
               (Some (seed_reply {["a" := "1"]})) ∅)
      ++ [LogOpen; GossipNew 9000 9100; GossipSeed 9001; GossipStart;
          ThreadStart "replication-listen-thread";
          ThreadStart "replication-broadcast-thread";
          ClientListen 9000; SignalHandlers]
  ∧ trace (main_recover (Some 9001%N)
             (Lines [log_line "a" "0"; log_line "z" "9"])
             (Some (seed_reply {["a" := "1"]})) ∅)
    = [SeedConnect 9001; SendStr (Some "bootstrap"); SeedClose].
Proof.
  apply (bootstrap_merges_seed_snapshot 9000 9100 9001
           (Lines [log_line "a" "0"; log_line "z" "9"])
           {["a" := "0"; "z" := "9"]} {["a" := "1"]}).
  - vm_compute. reflexivity.
  - apply map_Forall_singleton. split; reflexivity.
Defined.

(** C6 as stated fails: a client can set the key [tab_key] at the seed;
    the bootstrap from that seed completes, but the joining node reads the
    line with [split()] and holds the key [a] instead: it has no value for
    the key of the seed. *)
Lemma bootstrap_misreads_key_with_tab :
  final (handle_client ["set " +:+ tab_key +:+ " b"] ∅) = {[tab_key := "b"]}
  ∧ res (main 9000 9100 (Some 9001%N) Missing
           (Some (seed_reply {[tab_key := "b"]})) ∅) = Ok ()
  ∧ final (main 9000 9100 (Some 9001%N) Missing
             (Some (seed_reply {[tab_key := "b"]})) ∅) !! tab_key = None
  ∧ final (main 9000 9100 (Some 9001%N) Missing
             (Some (seed_reply {[tab_key := "b"]})) ∅) !! "a" = Some "b".
Proof. repeat split; vm_compute; reflexivity. Qed.

(** ** Sessions of the client handler *)

Section Sessions.

Implicit Types (data k v : string) (kv : Store) (cmds : list string).

(** The four ways one command can go. *)
Lemma handle_command_cases data kv :
  (∃ t k v, PyStr.startswith data "set " = true
     ∧ PyStr.split_on " " data = [t; k; v]
     ∧ handle_command data kv
       = Run (Ok ()) (<[k := v]> kv)
             [SendStr (Some "OK"); LogWrite data; LogWrite newline; LogFlush;
              QueuePut data])
  ∨ (∃ msg, PyStr.startswith data "set " = false
       ∧ handle_command data kv = Run (Ok ()) kv [SendStr msg])
  ∨ handle_command data kv = Run (Raise ValueError) kv [].
Proof.
  destruct (PyStr.startswith data "set ") eqn:Hs.
  - destruct (PyStr.split_on " " data) as [|t [|k [|v [|? ?]]]] eqn:Hsplit;
      try (right; right; apply handle_set_malformed; [done|];
           rewrite Hsplit; simpl; lia).
    left. exists t, k, v. split; [done|]. split; [done|].
    by apply (handle_set_run data t k v).
  - destruct (PyStr.startswith data "get ") eqn:Hg.
    + destruct (PyStr.split_on " " data) as [|t [|k [|? ?]]] eqn:Hsplit;
        try (right; right; apply handle_get_malformed; [done..|];
             rewrite Hsplit; simpl; lia).
      right; left. exists (kv !! k). split; [done|].
      by apply (handle_get_run data t k).
    + right; left. exists (Some error_marker). split; [done|].
      unfold handle_command. by rewrite Hs, Hg.
Qed.

Lemma handle_client_cons data cmds kv :
  handle_client (data :: cmds) kv
  = match res (handle_command data kv) with
    | Ok _ =>
        Run (res (handle_client cmds (final (handle_command data kv))))
            (final (handle_client cmds (final (handle_command data kv))))
            (trace (handle_command data kv)
             ++ trace (handle_client cmds (final (handle_command data kv))))
    | Raise e =>
        Run (Raise e) (final (handle_command data kv))
            (trace (handle_command data kv))
    end.
Proof. done. Qed.

(** A command that begins with [set ] is no bootstrap request. *)
Lemma set_not_bootstrap data :
  PyStr.startswith data "set " = true → is_bootstrap data = false.
Proof.
  unfold PyStr.startswith, is_bootstrap. destruct data as [|c r]; [done|].
  cbn [String.prefix]. destruct (ascii_dec "s" c) as [<-|]; [|done].
  intros _. reflexivity.
Qed.

(** X2: [get k], for a key without a space, is answered with what the
    store holds for [k], which is [None] for a key that was never set; the
    store is the same afterwards, nothing is written to the log and
    nothing is queued. *)
Theorem get_answers_from_store k kv :
  PyStr.count " " k = 0 →
  handle_command ("get " +:+ k) kv = Run (Ok ()) kv [SendStr (kv !! k)]
  ∧ (kv !! k = None →
     trace (handle_command ("get " +:+ k) kv) = [SendStr None]).
Proof.
  intros Hk.
  assert (handle_command ("get " +:+ k) kv = Run (Ok ()) kv [SendStr (kv !! k)])
    as Hrun.
  { apply (handle_get_run _ "get" k).
    - done.
    - apply startswith_app.
    - change ("get " +:+ k) with ("get" +:+ String " " k).
      rewrite split_on_app by done. by rewrite split_on_nosep. }
  split; [done|]. intros Hnone. by rewrite Hrun, Hnone.
Qed.

Lemma get_answers_from_store_witness :
  handle_command "get b" {["a" := "1"]}
  = Run (Ok ()) {["a" := "1"]} [SendStr (({["a" := "1"]} : Store) !! "b")]
  ∧ (({["a" := "1"]} : Store) !! "b" = None →
     trace (handle_command "get b" {["a" := "1"]}) = [SendStr None]).
Proof. apply (get_answers_from_store "b" {["a" := "1"]}). reflexivity. Defined.

(** When no I/O fails, the writes to the log are, in order, each queued
    command followed by a line feed. *)
Lemma handle_client_log_matches_queue cmds kv :
  log_writes (trace (handle_client cmds kv))
  = flat_map (λ data, [data; newline])
             (queue_puts (trace (handle_client cmds kv))).
Proof.
  revert kv. induction cmds as [|data cmds IH]; intros kv; [done|].
  rewrite handle_client_cons.
  destruct (handle_command_cases data kv)
    as [(t & k & v & _ & _ & ->)|[(msg & _ & ->)| ->]];
    cbn [res final trace]; [| |done].
  - unfold log_writes, queue_puts in *. rewrite !omap_app.
    cbn [omap list_omap app]. by rewrite IH.
  - unfold log_writes, queue_puts in *. rewrite !omap_app.
    cbn [omap list_omap app]. by rewrite IH.
Qed.

(** When no I/O fails, what a session queues, applied by the listener of
    a peer that starts from the same store, gives the store of the node. *)
Lemma handle_client_queue_converges cmds kv :
  replication_listen_loop (queue_puts (trace (handle_client cmds kv))) kv
  = Run (Ok ()) (final (handle_client cmds kv)) [].
Proof.
  revert kv. induction cmds as [|data cmds IH]; intros kv; [done|].
  rewrite handle_client_cons.
  destruct (handle_command_cases data kv)
    as [(t & k & v & Hs & Hsplit & ->)|[(msg & _ & ->)| ->]];
    cbn [res final trace]; [| |done].
  - unfold queue_puts. rewrite omap_app. cbn [omap list_omap app].
    fold (queue_puts (trace (handle_client cmds (<[k := v]> kv)))).
    unfold replication_listen_loop. cbn [for_each]. rewrite run_bind.
    rewrite (listen_set_run data t k v) by auto using set_not_bootstrap.
    cbn [res final trace app].
    fold (replication_listen_loop
            (queue_puts (trace (handle_client cmds (<[k := v]> kv))))).
    by rewrite IH.
  - unfold queue_puts. rewrite omap_app. cbn [omap list_omap app].
    apply IH.
Qed.

End Sessions.

(** ** Messages at the listener *)

Section Messages.

Implicit Types (cmd k v : string) (kv : Store) (cmds : list string).

(** The four ways one inbound message can go. *)
Lemma listen_step_cases cmd kv :
  (is_bootstrap cmd = true
   ∧ replication_listen_step cmd kv
     = Run (Ok ()) kv
           (SendUint32 (size kv)
            :: flat_map (served_entry cmd) (map_to_list kv)))
  ∨ (∃ t k v, PyStr.split_on " " cmd = [t; k; v]
       ∧ replication_listen_step cmd kv = Run (Ok ()) (<[k := v]> kv) [])
  ∨ replication_listen_step cmd kv = Run (Ok ()) kv []
  ∨ replication_listen_step cmd kv = Run (Raise AssertionError) kv [].
Proof.
  destruct (is_bootstrap cmd) eqn:Hb.
  { left. split; [done|]. by apply listen_bootstrap_run. }
  destruct (PyStr.startswith cmd "set ") eqn:Hs.
  - destruct (PyStr.split_on " " cmd) as [|t [|k [|v [|? ?]]]] eqn:Hsplit;
      try (right; right; right; apply listen_set_malformed; [done..|];
           rewrite Hsplit; simpl; lia).
    right; left. exists t, k, v. split; [done|].
    by apply (listen_set_run cmd t k v).
  - right; right; left. by apply listen_other_run.
Qed.

Lemma listen_loop_cons cmd cmds kv :
  replication_listen_loop (cmd :: cmds) kv
  = match res (replication_listen_step cmd kv) with
    | Ok _ =>
        Run (res (replication_listen_loop cmds
                    (final (replication_listen_step cmd kv))))
            (final (replication_listen_loop cmds
                      (final (replication_listen_step cmd kv))))
            (trace (replication_listen_step cmd kv)
             ++ trace (replication_listen_loop cmds
                         (final (replication_listen_step cmd kv))))
    | Raise e =>
        Run (Raise e) (final (replication_listen_step cmd kv))
            (trace (replication_listen_step cmd kv))
    end.
Proof. done. Qed.

(** X1: receiving the same message twice leaves the listener with the
    store, and the outcome, of receiving it once. *)
Theorem replicated_message_idempotent cmd kv :
  final (replication_listen_loop [cmd; cmd] kv)
  = final (replication_listen_loop [cmd] kv)
  ∧ res (replication_listen_loop [cmd; cmd] kv)
    = res (replication_listen_loop [cmd] kv).
Proof.
  rewrite !listen_loop_cons.
  destruct (listen_step_cases cmd kv)
    as [[_ H]|[(t & k & v & Hsplit & H)|[H|H]]]; rewrite !H;
    cbn [res final trace]; rewrite ?H; try done.
  destruct (listen_step_cases cmd (<[k := v]> kv))
    as [[Hb H']|[(t' & k' & v' & Hsplit' & H')|[H'|H']]]; rewrite !H';
    cbn [res final trace]; try done.
  - rewrite Hsplit in Hsplit'. injection Hsplit' as <- <- <-.
    by rewrite insert_insert_eq.
  - (* the assertion depends on the message only *)
    exfalso. unfold replication_listen_step in H, H'.
    destruct (is_bootstrap cmd); [done|].
    destruct (negb (PyStr.startswith cmd "set ")); [done|].
    rewrite Hsplit in H'. done.
Qed.

Lemma lower_app (a b : string) :
  PyStr.lower (a +:+ b) = PyStr.lower a +:+ PyStr.lower b.
Proof.
  induction a as [|c a IH]; [done|].
  change (String (PyStr.lower_char c) (PyStr.lower (a +:+ b))
          = String (PyStr.lower_char c) (PyStr.lower a +:+ PyStr.lower b)).
  by rewrite IH.
Qed.

Lemma served_frames cmd (l : list (string * string)) :
  frames_of (flat_map (served_entry cmd) l)
  = (λ e, FStr (set_line e.1 e.2)) <$> l.
Proof.
  induction l as [|e l IH]; [done|].
  change (flat_map (served_entry cmd) (e :: l))
    with (served_entry cmd e ++ flat_map (served_entry cmd) l).
  unfold frames_of in *. rewrite omap_app, IH. done.
Qed.

(** X5: a message whose first nine characters spell [bootstrap] in any
    mix of upper and lower case, whatever follows them, is served as a
    bootstrap request: the store is left as it is, and the answer is the
    number of entries followed by exactly that many [set k v] lines, one
    for each entry of the store. *)
Theorem bootstrap_request_any_case p rest kv :
  PyStr.lower p = "bootstrap" →
  res (replication_listen_step (p +:+ rest) kv) = Ok ()
  ∧ final (replication_listen_step (p +:+ rest) kv) = kv
  ∧ frames_of (trace (replication_listen_step (p +:+ rest) kv))
    = FUint32 (size kv)
      :: ((λ e, FStr (set_line e.1 e.2)) <$> map_to_list kv)
  ∧ length ((λ e, FStr (set_line e.1 e.2)) <$> map_to_list kv) = size kv.
Proof.
  intros Hp.
  assert (is_bootstrap (p +:+ rest) = true) as Hb.
  { unfold is_bootstrap. rewrite lower_app, Hp. apply startswith_app. }
  rewrite listen_bootstrap_run by done. cbn [res final trace].
  repeat split.
  - change (frames_of (SendUint32 ?n :: ?t)) with (FUint32 n :: frames_of t).
    by rewrite served_frames.
  - by rewrite length_fmap, length_map_to_list.
Qed.

Lemma bootstrap_request_any_case_witness :
  res (replication_listen_step ("BootStrap" +:+ " now") {["a" := "1"]}) = Ok ()
  ∧ final (replication_listen_step ("BootStrap" +:+ " now") {["a" := "1"]})
    = {["a" := "1"]}
  ∧ frames_of (trace (replication_listen_step ("BootStrap" +:+ " now")
                        {["a" := "1"]}))
    = FUint32 (size ({["a" := "1"]} : Store))
      :: ((λ e, FStr (set_line e.1 e.2))
            <$> map_to_list ({["a" := "1"]} : Store))
  ∧ length ((λ e, FStr (set_line e.1 e.2))
              <$> map_to_list ({["a" := "1"]} : Store))
    = size ({["a" := "1"]} : Store).
Proof.
  apply (bootstrap_request_any_case "BootStrap" " now" {["a" := "1"]}).
  reflexivity.
Defined.

(** The fields of [split_on] hold no separator. *)
Lemma split_on_fields sep s :
  Forall (λ f, PyStr.count sep f = 0) (PyStr.split_on sep s).
Proof.
  induction s as [|c s IH]; [by repeat constructor|].
  cbn [PyStr.split_on]. destruct (Ascii.eqb c sep) eqn:Hc.
  - by constructor.
  - destruct (PyStr.split_on sep s) as [|t ts].
    + repeat constructor. simpl. by rewrite Hc.
    + inversion IH as [|? ? Ht Hts]; subst. constructor; [|done].
      simpl. by rewrite Hc, Ht.
Qed.

Lemma space_free_insert t k v kv cmd :
  PyStr.split_on " " cmd = [t; k; v] →
  space_free kv → space_free (<[k := v]> kv).
Proof.
  intros Hsplit Hkv. pose proof (split_on_fields " " cmd) as Hf.
  rewrite Hsplit in Hf.
  inversion Hf as [|? ? _ Hf']; subst.
  inversion Hf' as [|? ? Hk Hf'']; subst.
  inversion Hf'' as [|? ? Hv _]; subst.
  by apply map_Forall_insert_2.
Qed.

(** X10: a session of the client handler never puts a space into a key
    or a value: if the store has none before, it has none after, whatever
    the commands. *)
Theorem client_keeps_store_space_free cmds kv :
  space_free kv → space_free (final (handle_client cmds kv)).
Proof.
  revert kv. induction cmds as [|data cmds IH]; intros kv Hkv; [done|].
  rewrite handle_client_cons.
  destruct (handle_command_cases data kv)
    as [(t & k & v & _ & Hsplit & ->)|[(msg & _ & ->)| ->]];
    cbn [res final trace]; [| |done].
  - apply IH. by apply (space_free_insert t k v kv data).
  - by apply IH.
Qed.

Lemma client_keeps_store_space_free_witness :
  space_free (final (handle_client ["set a 1"; "get a"; "set b  "] ∅)).
Proof.
  apply (client_keeps_store_space_free ["set a 1"; "get a"; "set b  "] ∅).
  apply map_Forall_empty.
Defined.

(** X11: the listener never puts a space into a key or a value either,
    whatever the messages and whether or not the loop ends in an
    assertion failure. *)
Theorem listener_keeps_store_space_free cmds kv :
  space_free kv → space_free (final (replication_listen_loop cmds kv)).
Proof.
  revert kv. induction cmds as [|cmd cmds IH]; intros kv Hkv; [done|].
  rewrite listen_loop_cons.
  destruct (listen_step_cases cmd kv)
    as [[_ H]|[(t & k & v & Hsplit & H)|[H|H]]]; rewrite H;
    cbn [res final trace]; [| | |done].
  - by apply IH.
  - apply IH. by apply (space_free_insert t k v kv cmd).
  - by apply IH.
Qed.

Lemma listener_keeps_store_space_free_witness :
  space_free (final (replication_listen_loop ["set a 1"; "bootstrap"; "x"] ∅)).
Proof.
  apply (listener_keeps_store_space_free ["set a 1"; "bootstrap"; "x"] ∅).
  apply map_Forall_empty.
Defined.

End Messages.

(** ** Start-up and replay *)

Section Startup.

Implicit Types (line k v : string) (kv local : Store) (f : log_file)
  (seed : option (list frame)).

Lemma read_dict_trace n acc sock : trace (read_dict n acc sock) = [].
Proof.
  revert acc sock. induction n as [|n IH]; intros acc sock; [done|].
  cbn [read_dict]. rewrite run_bind.
  assert (trace (read_kv sock) = []) as Hkv.
  { unfold read_kv. rewrite run_bind.
    destruct sock as [|[m|s] sock]; [done..|]. cbn [read_str res final trace].
    by destruct (PyStr.split s) as [|? [|? [|? [|? ?]]]]. }
  destruct (res (read_kv sock)) as [[k v]|e]; cbn [trace]; rewrite Hkv; [|done].
  apply IH.
Qed.

Lemma bootstrap_exchange_trace sock :
  trace (bootstrap_exchange sock) = [SendStr (Some "bootstrap")].
Proof.
  unfold bootstrap_exchange. rewrite run_bind.
  cbn [send_str emit res final trace]. rewrite run_bind.
  destruct sock as [|[n|s] sock]; cbn [read_uint32 res final trace]; [done| |done].
  by rewrite read_dict_trace.
Qed.

(** The replay and the bootstrap have none of the effects of serving. *)
Lemma main_recover_trace seed_port f seed kv :
  Forall (λ e, serving_effect e = false)
         (trace (main_recover seed_port f seed kv)).
Proof.
  unfold main_recover. rewrite run_bind.
  destruct (restore_from_file f) as [local|e];
    cbn [lift_outcome mret M_ret ret raise res final trace]; [|done].
  rewrite run_bind. cbn [put_state res final trace app].
  destruct (truthy seed_port) as [sp|]; [|done].
  rewrite run_bind.
  assert (Forall (λ e, serving_effect e = false)
                 (trace (bootstrap_kv (S := Store) sp seed local))) as Hb.
  { unfold bootstrap_kv, one_time_socket. destruct seed as [frames|].
    - cbn [trace]. rewrite bootstrap_exchange_trace. by repeat constructor.
    - by repeat constructor. }
  destruct (res (bootstrap_kv sp seed local)); cbn [trace]; [|done].
  rewrite run_bind. cbn [get_state put_state res final trace].
  by rewrite !app_nil_r.
Qed.

(** X6: when the replay or the bootstrap raises (the log is unreadable or
    malformed, the seed refuses the connection or answers badly), [main]
    raises the same exception and has done nothing of serving: the log is
    not opened for appending, no thread is started and the client endpoint
    never listens. *)
Theorem failed_recovery_stops_main port gport seed_port f seed e :
  res (main_recover seed_port f seed ∅) = Raise e →
  res (main port gport seed_port f seed ∅) = Raise e
  ∧ Forall (λ x, serving_effect x = false)
           (trace (main port gport seed_port f seed ∅)).
Proof.
  intros He. unfold main. rewrite run_bind, He. cbn [res trace].
  split; [done|]. apply main_recover_trace.
Qed.

Lemma failed_recovery_stops_main_witness :
  res (main 9000 9100 (Some 9001%N) Missing None ∅) = Raise OSError
  ∧ Forall (λ x, serving_effect x = false)
           (trace (main 9000 9100 (Some 9001%N) Missing None ∅)).
Proof.
  apply (failed_recovery_stops_main 9000 9100 (Some 9001%N) Missing None OSError).
  reflexivity.
Defined.

Lemma restore_lines_bad pre bad post kv :
  length (PyStr.split (PyStr.rstrip bad)) ≠ 3 →
  restore_lines (pre ++ bad :: post) kv = Raise ValueError.
Proof.
  intros Hbad. revert kv. induction pre as [|line pre IH]; intros kv.
  - cbn [app restore_lines].
    by destruct (PyStr.split (PyStr.rstrip bad)) as [|? [|? [|? [|? ?]]]].
  - cbn [app restore_lines].
    destruct (PyStr.split (PyStr.rstrip line)) as [|? [|? [|? [|? ?]]]];
      first [done | apply IH].
Qed.

(** X8: one line that has not exactly three whitespace-separated fields
    (a blank line, say), anywhere in the log, makes the replay raise
    [ValueError]: no store is returned, not even for the lines before
    it. *)
Theorem replay_rejects_malformed_line pre bad post :
  length (PyStr.split (PyStr.rstrip bad)) ≠ 3 →
  restore_from_file (Lines (pre ++ bad :: post)) = Raise ValueError.
Proof.
  intros Hbad. unfold restore_from_file, restore_body. cbn [open_kv_log].
  by rewrite restore_lines_bad.
Qed.

Lemma replay_rejects_malformed_line_witness :
  restore_from_file (Lines ([log_line "a" "1"] ++ newline :: [log_line "b" "2"]))
  = Raise ValueError.
Proof.
  apply (replay_rejects_malformed_line [log_line "a" "1"] newline
           [log_line "b" "2"]).
  vm_compute. lia.
Defined.

(** The fields of [split] are words. *)
Lemma split_fields_words s :
  Forall (λ t, PyStr.word t = true) (PyStr.split s).
Proof.
  induction s as [|c s IH]; [constructor|].
  rewrite split_cons. destruct (PyStr.isspace c) eqn:Hc; [done|].
  destruct s as [|c' s]; [repeat constructor; simpl; by rewrite Hc|].
  destruct (PyStr.isspace c') eqn:Hc'.
  - constructor; [simpl; by rewrite Hc|done].
  - destruct (PyStr.split (String c' s)) as [|t ts].
    + repeat constructor. simpl. by rewrite Hc.
    + inversion IH as [|? ? Ht Hts]; subst. constructor; [|done].
      destruct t as [|a t]; [done|].
      unfold PyStr.word in *. cbn [PyStr.nospace] in *. by rewrite Hc, Ht.
Qed.

Lemma restore_lines_words lines kv kv' :
  words_only kv → restore_lines lines kv = Ok kv' → words_only kv'.
Proof.
  revert kv. induction lines as [|line lines IH]; intros kv Hkv.
  - cbn. by intros [= <-].
  - cbn [restore_lines].
    pose proof (split_fields_words (PyStr.rstrip line)) as Hf.
    destruct (PyStr.split (PyStr.rstrip line)) as [|t [|k [|v [|? ?]]]];
      try done.
    apply IH.
    inversion Hf as [|? ? _ Hf']; subst.
    inversion Hf' as [|? ? Hk Hf'']; subst.
    inversion Hf'' as [|? ? Hv _]; subst.
    by apply map_Forall_insert_2.
Qed.

Lemma restore_from_file_words f kv :
  restore_from_file f = Ok kv → words_only kv.
Proof.
  unfold restore_from_file, restore_body.
  destruct f as [| |lines]; cbn [open_kv_log]; [|done|].
  - intros [= <-]. apply map_Forall_empty.
  - destruct (restore_lines lines ∅) as [kv'|e] eqn:Hr.
    + intros [= <-]. eapply restore_lines_words; [|exact Hr].
      apply map_Forall_empty.
    + by apply restore_lines_raise in Hr as ->.
Qed.

(** X13: whatever the log holds, the store that a successful replay
    returns has only words for keys and values: none is empty and none
    holds whitespace. *)
Theorem replay_yields_words f kv :
  restore_from_file f = Ok kv → words_only kv.
Proof. apply restore_from_file_words. Qed.

Lemma replay_yields_words_witness :
  words_only {["a" := "1"]}.
Proof.
  apply (replay_yields_words (Lines [log_line "a" "1"]) {["a" := "1"]}).
  vm_compute. reflexivity.
Defined.

End Startup.

(** ** From the log of a session back to its store *)

Section Recovery.

Implicit Types (data k v : string) (kv : Store) (cmds : list string).

(** A string without whitespace holds no given whitespace character. *)
Lemma nospace_count c s :
  PyStr.isspace c = true → PyStr.nospace s = true → PyStr.count c s = 0.
Proof.
  intros Hc. induction s as [|a s IH]; [done|].
  cbn [PyStr.nospace PyStr.count]. intros [Ha Hs]%andb_prop.
  apply negb_true_iff in Ha.
  destruct (Ascii.eqb a c) eqn:Hac.
  - apply Ascii.eqb_eq in Hac as ->. congruence.
  - by rewrite IH.
Qed.

Lemma word_count c s :
  PyStr.isspace c = true → PyStr.word s = true → PyStr.count c s = 0.
Proof.
  intros Hc Hs. apply nospace_count; [done|]. by destruct s.
Qed.

(** A line without line ends, written with its line feed, is read back
    as one line. *)
Lemma text_lines_line s rest :
  PyStr.count (ascii_of_nat 10) s = 0 → PyStr.count (ascii_of_nat 13) s = 0 →
  text_lines (s +:+ (newline +:+ rest)) = (s +:+ newline) :: text_lines rest.
Proof.
  induction s as [|c s IH]; [done|].
  cbn [PyStr.count]. intros Hlf Hcr.
  change (String c s +:+ (newline +:+ rest))
    with (String c (s +:+ (newline +:+ rest))).
  cbn [text_lines].
  destruct (Ascii.eqb c (ascii_of_nat 10)); [simpl in Hlf; lia|].
  destruct (Ascii.eqb c (ascii_of_nat 13)); [simpl in Hcr; lia|].
  rewrite IH by (simpl in *; lia). done.
Qed.

Lemma set_line_no_line_end k v c :
  PyStr.isspace c = true → c ≠ " "%char →
  PyStr.word k = true → PyStr.word v = true →
  PyStr.count c (set_line k v) = 0.
Proof.
  intros Hc Hne Hk Hv. unfold set_line.
  rewrite !count_app, (word_count c k), (word_count c v) by done.
  cbn [PyStr.count].
  assert (Ascii.eqb " " c = false) as ->.
  { apply Ascii.eqb_neq. congruence. }
  assert (Ascii.eqb "s" c = false) as ->.
  { apply Ascii.eqb_neq. intros <-. done. }
  assert (Ascii.eqb "e" c = false) as ->.
  { apply Ascii.eqb_neq. intros <-. done. }
  assert (Ascii.eqb "t" c = false) as ->.
  { apply Ascii.eqb_neq. intros <-. done. }
  done.
Qed.

Lemma log_writes_app t1 t2 :
  log_writes (t1 ++ t2) = log_writes t1 ++ log_writes t2.
Proof. apply omap_app. Qed.

(** The lines of the log of a session are [set] lines, and applying them
    in order to the store the session started from gives the store it
    ended with. *)
Lemma session_log_entries cmds kv :
  Forall (λ data, PyStr.startswith data "set " = true → word_set data) cmds →
  ∃ es,
    text_lines (file_content (log_writes (trace (handle_client cmds kv))))
    = log_lines es
    ∧ word_entries es
    ∧ final (handle_client cmds kv) = apply_entries kv es.
Proof.
  intros H. revert kv. induction H as [|data cmds Hdata _ IH]; intros kv.
  { exists []. split; [done|]. split; [constructor|done]. }
  rewrite handle_client_cons.
  destruct (handle_command_cases data kv)
    as [(t & k & v & Hs & Hsplit & ->)|[(msg & _ & ->)| ->]];
    cbn [res final trace].
  - destruct (Hdata Hs) as (k' & v' & Hk & Hv & ->).
    rewrite set_line_fields in Hsplit by (by rewrite Hsplit).
    injection Hsplit as <- <- <-.
    destruct (IH (<[k' := v']> kv)) as (es & Hlines & Hwords & Hfinal).
    exists ((k', v') :: es). split; [|split; [by constructor|done]].
    rewrite log_writes_app.
    change (log_writes [SendStr (Some "OK"); LogWrite (set_line k' v');
                        LogWrite newline; LogFlush;
                        QueuePut (set_line k' v')])
      with [set_line k' v'; newline].
    change (file_content ([set_line k' v'; newline] ++ ?l))
      with (set_line k' v' +:+ (newline +:+ file_content l)).
    rewrite text_lines_line
      by (apply set_line_no_line_end; done).
    by rewrite Hlines.
  - destruct (IH kv) as (es & Hlines & Hwords & Hfinal).
    exists es. split; [|done].
    rewrite log_writes_app. by destruct msg.
  - exists []. split; [done|]. split; [constructor|done].
Qed.

(** When no I/O fails and every [set] command has words for key and
    value, replaying the log of a session that started on an empty store
    and an empty log gives the store of the session. *)
Lemma handle_client_log_replays cmds :
  Forall (λ data, PyStr.startswith data "set " = true → word_set data) cmds →
  restore_from_file
    (Lines (text_lines
              (file_content (log_writes (trace (handle_client cmds ∅))))))
  = Ok (final (handle_client cmds ∅)).
Proof.
  intros H.
  destruct (session_log_entries cmds ∅ H) as (es & -> & Hwords & ->).
  unfold restore_from_file, restore_body. cbn [open_kv_log].
  by rewrite restore_lines_ok.
Qed.

End Recovery.

(** ** A fresh node joining a recovered seed *)

Section Joining.

Implicit Types (kv seed_kv : Store) (f : log_file).

(** X14: a seed whose store is what it replayed from its own log can
    always be joined: a node that has no log of its own and bootstraps
    from it completes the exchange and holds exactly the store of the
    seed. *)
Theorem fresh_node_copies_recovered_seed sp f seed_kv :
  restore_from_file f = Ok seed_kv →
  main_recover (Some (Npos sp)) Missing (Some (seed_reply seed_kv)) ∅
  = Run (Ok ()) seed_kv
        [SeedConnect (Npos sp); SendStr (Some "bootstrap"); SeedClose].
Proof.
  intros Hf. apply restore_from_file_words in Hf.
  rewrite (main_recover_ok sp Missing ∅ seed_kv) by done.
  unfold dict_update. by rewrite (right_id_L ∅ (∪)).
Qed.

Lemma fresh_node_copies_recovered_seed_witness :
  main_recover (Some 9001%N) Missing (Some (seed_reply {["a" := "2"]})) ∅
  = Run (Ok ()) {["a" := "2"]}
        [SeedConnect 9001; SendStr (Some "bootstrap"); SeedClose].
Proof.
  apply (fresh_node_copies_recovered_seed 9001
           (Lines [log_line "a" "1"; log_line "a" "2"]) {["a" := "2"]}).
  vm_compute. reflexivity.
Defined.

End Joining.

(** ** Sessions of the client handler when I/O can fail *)

Section FailingIO.

Implicit Types (data k v : string) (kv : Store)
  (cmds : list (string * option nat)) (ending : option exn).

Lemma handle_command_io_none data : handle_command_io None data = handle_command data.
Proof. done. Qed.

(** A session without I/O failure runs as [handle_client] does; the way
    it ends changes neither the store nor the effects. *)
Lemma handle_client_io_no_failure cmds ending kv :
  no_io_failure cmds →
  final (handle_client_io cmds ending kv) = final (handle_client cmds.*1 kv)
  ∧ trace (handle_client_io cmds ending kv) = trace (handle_client cmds.*1 kv).
Proof.
  intros H.
  assert (for_each (λ c, handle_command_io c.2 c.1) cmds kv
          = handle_client cmds.*1 kv) as Hloop.
  { revert kv. induction H as [|[data fail] cmds Hfail _ IH]; intros kv; [done|].
    cbn [fst snd] in Hfail. subst fail.
    rewrite fmap_cons, handle_client_cons. cbn [for_each]. rewrite run_bind.
    cbn [fst snd]. rewrite handle_command_io_none.
    destruct (res (handle_command data kv)); [|done]. by rewrite IH. }
  unfold handle_client_io. rewrite run_bind, Hloop.
  destruct (res (handle_client cmds.*1 kv)); [|done].
  destruct ending; cbn [raise mret M_ret ret res final trace];
    by rewrite app_nil_r.
Qed.

(** The ways one command can go when an I/O operation may fail. *)
Lemma handle_command_io_cases fail data kv :
  (∃ k v,
     handle_command_io fail data kv
     = Run (Ok ()) (<[k := v]> kv)
           [SendStr (Some "OK"); LogWrite data; LogWrite newline; LogFlush;
            QueuePut data])
  ∨ (∃ msg, handle_command_io fail data kv = Run (Ok ()) kv [SendStr msg])
  ∨ (∃ e kv' t,
       handle_command_io fail data kv = Run (Raise e) kv' t
       ∧ queue_puts t = []
       ∧ (length (log_writes t) ≤ 2)%nat).
Proof.
  unfold handle_command_io.
  destruct (PyStr.startswith data "set ").
  - destruct (PyStr.split_on " " data) as [|t [|k [|v [|? ?]]]];
      try (right; right; exists ValueError, kv, []; repeat split; simpl; lia).
    destruct fail as [[|[|[|[|n]]]]|];
      first [ by (left; exists k, v)
            | (right; right; eexists OSError, _, _;
               split; [reflexivity|]; split; [reflexivity|simpl; lia]) ].
  - destruct (PyStr.startswith data "get ").
    + destruct (PyStr.split_on " " data) as [|t [|k [|? ?]]];
        try (right; right; exists ValueError, kv, []; repeat split; simpl; lia).
      destruct fail as [[|n]|];
        first [ by (right; left; eexists)
              | (right; right; eexists OSError, _, _;
                 split; [reflexivity|]; split; [reflexivity|simpl; lia]) ].
    + destruct fail as [[|n]|];
        first [ by (right; left; eexists)
              | (right; right; eexists OSError, _, _;
                 split; [reflexivity|]; split; [reflexivity|simpl; lia]) ].
Qed.

Lemma queue_puts_app t1 t2 :
  queue_puts (t1 ++ t2) = queue_puts t1 ++ queue_puts t2.
Proof. apply omap_app. Qed.

Lemma client_loop_log_ahead cmds kv :
  ∃ tail,
    log_writes (trace (for_each (λ c, handle_command_io c.2 c.1) cmds kv))
    = flat_map (λ data, [data; newline])
        (queue_puts
           (trace (for_each (λ c, handle_command_io c.2 c.1) cmds kv)))
      ++ tail
    ∧ (length tail ≤ 2)%nat.
Proof.
  revert kv. induction cmds as [|[data fail] cmds IH]; intros kv.
  { exists []. split; [done|simpl; lia]. }
  cbn [for_each]. rewrite run_bind. cbn [fst snd].
  destruct (handle_command_io_cases fail data kv)
    as [(k & v & ->)|[(msg & ->)|(e & kv' & t & -> & Hq & Hlen)]];
    cbn [res final trace].
  - destruct (IH (<[k := v]> kv)) as (tail & Heq & Hlen).
    exists tail. split; [|done].
    rewrite log_writes_app, queue_puts_app, Heq. done.
  - destruct (IH kv) as (tail & Heq & Hlen).
    exists tail. split; [|done].
    rewrite log_writes_app, queue_puts_app, Heq. by destruct msg.
  - exists (log_writes t). by rewrite Hq.
Qed.

(** X9: in a session in which no [send_str], [write] or [flush] fails,
    whatever the commands and however the session ends, the log and the
    queue agree: the writes to the log are, in order, each queued command
    followed by a line feed. *)
Theorem log_matches_queue_without_io_failure cmds ending kv :
  no_io_failure cmds →
  log_writes (trace (handle_client_io cmds ending kv))
  = flat_map (λ data, [data; newline])
             (queue_puts (trace (handle_client_io cmds ending kv))).
Proof.
  intros H. destruct (handle_client_io_no_failure cmds ending kv H) as [_ ->].
  apply handle_client_log_matches_queue.
Qed.

Lemma log_matches_queue_without_io_failure_witness :
  log_writes
    (trace (handle_client_io [("set a 1", None); ("get a", None);
                              ("set b", None); ("set c 3", None)]
              (Some OSError) ∅))
  = flat_map (λ data, [data; newline])
      (queue_puts
         (trace (handle_client_io [("set a 1", None); ("get a", None);
                                   ("set b", None); ("set c 3", None)]
                   (Some OSError) ∅))).
Proof.
  apply (log_matches_queue_without_io_failure
           [("set a 1", None); ("get a", None); ("set b", None);
            ("set c 3", None)] (Some OSError) ∅).
  repeat constructor.
Defined.

(** X4: in a session in which no [send_str], [write] or [flush] fails,
    what the session queues for broadcast, applied by the listener of a
    peer that starts from the same store, brings the peer to the store of
    the node; the listener accepts every queued command, answers nothing
    and logs nothing. *)
Theorem queued_writes_converge_without_io_failure cmds ending kv :
  no_io_failure cmds →
  replication_listen_loop
    (queue_puts (trace (handle_client_io cmds ending kv))) kv
  = Run (Ok ()) (final (handle_client_io cmds ending kv)) [].
Proof.
  intros H. destruct (handle_client_io_no_failure cmds ending kv H) as [-> ->].
  apply handle_client_queue_converges.
Qed.

Lemma queued_writes_converge_without_io_failure_witness :
  replication_listen_loop
    (queue_puts
       (trace (handle_client_io [("set a 1", None); ("get a", None);
                                 ("set a 2", None); ("set b", None)]
                 None ∅))) ∅
  = Run (Ok ())
        (final (handle_client_io [("set a 1", None); ("get a", None);
                                  ("set a 2", None); ("set b", None)]
                  None ∅)) [].
Proof.
  apply (queued_writes_converge_without_io_failure
           [("set a 1", None); ("get a", None); ("set a 2", None);
            ("set b", None)] None ∅).
  repeat constructor.
Defined.

(** X3: take a session that starts on an empty store and an empty log,
    in which no [send_str], [write] or [flush] fails and every [set]
    command has a word for key and for value.  However the session ends,
    replaying the log it has written gives back exactly the store it has
    built. *)
Theorem session_log_replays_without_io_failure cmds ending :
  no_io_failure cmds →
  Forall (λ c, PyStr.startswith c.1 "set " = true → word_set c.1) cmds →
  restore_from_file
    (Lines (text_lines
              (file_content
                 (log_writes (trace (handle_client_io cmds ending ∅))))))
  = Ok (final (handle_client_io cmds ending ∅)).
Proof.
  intros H Hw. destruct (handle_client_io_no_failure cmds ending ∅ H) as [-> ->].
  apply handle_client_log_replays. by apply Forall_fmap.
Qed.

Lemma session_log_replays_without_io_failure_witness :
  restore_from_file
    (Lines (text_lines
              (file_content
                 (log_writes
                    (trace (handle_client_io
                              [("set a 1", None); ("get a", None);
                               ("set a 2", None); ("get", None)]
                              None ∅))))))
  = Ok (final (handle_client_io
                 [("set a 1", None); ("get a", None); ("set a 2", None);
                  ("get", None)] None ∅)).
Proof.
  apply (session_log_replays_without_io_failure
           [("set a 1", None); ("get a", None); ("set a 2", None);
            ("get", None)] None).
  - repeat constructor.
  - repeat constructor; cbn [fst].
    + intros _. exists "a", "1". repeat split; reflexivity.
    + intros H. vm_compute in H. discriminate H.
    + intros _. exists "a", "2". repeat split; reflexivity.
    + intros H. vm_compute in H. discriminate H.
Defined.

(** X15: when the acknowledgment, a write to the log or the flush of an
    accepted [set] fails, the handler raises [OSError] with the write
    already in the store: [get] would answer it, but it is not queued for
    broadcast and its line was not flushed to the log. *)
Theorem failed_set_stays_in_store data t k v n kv :
  PyStr.startswith data "set " = true →
  PyStr.split_on " " data = [t; k; v] →
  (n < 4)%nat →
  res (handle_command_io (Some n) data kv) = Raise OSError
  ∧ final (handle_command_io (Some n) data kv) !! k = Some v
  ∧ queue_puts (trace (handle_command_io (Some n) data kv)) = []
  ∧ LogFlush ∉ trace (handle_command_io (Some n) data kv).
Proof.
  intros Hs Hsplit Hn. unfold handle_command_io. rewrite Hs, Hsplit.
  destruct n as [|[|[|[|n]]]]; [..|lia];
    (split; [reflexivity|]); (split; [apply lookup_insert_eq|]);
    (split; [reflexivity|]); cbn;
    repeat (apply not_elem_of_cons; split; [discriminate|]);
    apply not_elem_of_nil.
Qed.

Lemma failed_set_stays_in_store_witness :
  res (handle_command_io (Some 3) "set a 1" ∅) = Raise OSError
  ∧ final (handle_command_io (Some 3) "set a 1" ∅) !! "a" = Some "1"
  ∧ queue_puts (trace (handle_command_io (Some 3) "set a 1" ∅)) = []
  ∧ LogFlush ∉ trace (handle_command_io (Some 3) "set a 1" ∅).
Proof.
  apply (failed_set_stays_in_store "set a 1" "set" "a" "1" 3 ∅).
  - reflexivity.
  - reflexivity.
  - lia.
Defined.

(** X16: whatever fails and however the session ends, the queue is never
    ahead of the log: the writes to the log begin with each queued command
    followed by a line feed, in order, and go on with at most the two
    writes of one command that was not queued. *)
Theorem queue_never_ahead_of_log cmds ending kv :
  ∃ tail,
    log_writes (trace (handle_client_io cmds ending kv))
    = flat_map (λ data, [data; newline])
        (queue_puts (trace (handle_client_io cmds ending kv)))
      ++ tail
    ∧ (length tail ≤ 2)%nat.
Proof.
  destruct (client_loop_log_ahead cmds kv) as (tail & Heq & Hlen).
  exists tail. split; [|done].
  unfold handle_client_io. rewrite run_bind.
  destruct (res (for_each (λ c, handle_command_io c.2 c.1) cmds kv));
    [|done].
  destruct ending; cbn [raise mret M_ret ret res final trace];
    by rewrite app_nil_r.
Qed.

End FailingIO.
